(* ===== verification/_CoqProject ===== *)
-Q . S2P
Prelude.v
PyFloat.v
PyParse.v
PyJson.v
Keystroke.v
Face.v
Geo.v
Decision.v
Store.v
Verify.v
Enroll.v
Response.v
Server.v
App.v
