(* ===== verification/Prelude.v ===== *)
(** * CynLock: a verification development of the scoring and decision core

    CynLock (repository hidayathma06/CynLock-) is a Flask application in one
    file, [src/acc.py].  It enrolls a user's typing rhythm, location and an
    optional face signal ([enroll], lines 58-112) and later verifies a login
    attempt ([verify], lines 114-201) by blending three similarity scores into
    a total that is mapped to [allow], [mfa] or [block].

    ** The program and how its parts interact

    - [keystroke_similarity] (22-41) compares the stored and the submitted
      average dwell and flight times and gives a score in [0, 100];
    - [face_score_from_value] (44-51) turns the optional [face_score] of the
      request into the face score (40 by default);
    - the geo score (159-168, inside [verify]) compares the submitted point
      with the enrolled one and gives 100, 60 or 0;
    - the decision (174-183, inside [verify]) blends the three scores and
      compares the total with 75 and 55;
    - [enroll] hashes the password with bcrypt and upserts one row of the
      MySQL table [users]; [verify] selects that row, checks the password
      when one is sent, and computes the scores and the decision.
    Both handlers run in [try ... except Exception] and answer 500 on any
    exception.

    ** Files, in dependency order

    - [Prelude] (this file): Python's exceptions [pyexc], the exception
      monad [result] with [try_except] (the [try ... except] blocks),
      boolean comparisons on [Q] and the tactics and hint databases
      ([cynlock], [cynlock_rw]) shared by the other files.
    - [PyFloat]: Python floats as [pyfloat] (a finite rational, the two
      infinities, NaN) with [abs], [-], [+], [*], [max], [<], [>=],
      [round(x, 2)] (round half to even) and [math.sqrt] as [math_sqrt];
      an equivalence [≡] with [Proper] instances for setoid rewriting; the
      overflow bound [2^1024 - 2^970] of conversions to [float].
    - [PyParse]: [float(str)] of CPython on ASCII strings: blanks, sign,
      digits with underscores, fraction, exponent, [inf], [infinity], [nan];
      a literal beyond the double range is an infinity.
    - [PyJson]: the values of [request.get_json()] ([jval]), [dict.get]
      (the last duplicate key wins), truthiness, [float()] on a value (an
      [int] beyond the double range raises [OverflowError]), the numeric
      operands of [-], and [str.encode].
    - [Keystroke] (Module [Keystroke]): [keystroke_fields] (24-27),
      [keystroke_score] (29-38), [keystroke_similarity] (22-41).
    - [Face] (Module [Face]): [face_score_from_value] (44-51).
    - [Geo] (Module [Geo]): [geo_radicand] (162), [geo_bucket] (163-168)
      and [geo_score] (159-168).
    - [Decision] (Module [Decision]): [total_score] (175),
      [decision_of_total] (177-183) and the contract [decision_spec].
    - [Store] (Module [Store]): the interfaces [UserStore] ([get_db] and
      the two SQL statements) and [PasswordHasher] ([bcrypt]) with their
      laws; the instance [MySQL], a [gmap] from usernames to [user_row]s
      that may be down; [plain_hasher], a lawful hasher to run examples.
    - [Verify] (Module [Verify], Section [Handler]): [verify_body] (request
      reads, 127-133), [verify_user] (135-197), [check_password] (150-154),
      [score_attempt] (156-197, with the [ks.get] of line 187 that may
      raise) and [verify] (the [try], 126-201), generic in the store and the
      hasher; [verify_response] and [verify_status] are its answers.
    - [Enroll] (Module [Enroll]): [enroll_body] (71-76), [enroll_user]
      (78-108), [enroll_row] (85-88) and [enroll] (70-112), generic in the
      store and the hasher; [enroll] threads the store: it returns the
      answer and the store after the request.  [reachable] is the step
      relation of the MySQL table under enrollments and connection changes;
      [enroll_spec] and [absr] give the abstract contract of enrollment.
    - [Response] (Module [Response]): [verify_json] and [enroll_json], the
      status and dict of every [return jsonify(...)] (79, 108, 112, 136,
      147, 154, 190-197, 201), [decision_str] (the strings of 178-183), and
      [strict_json], the bodies [json.dumps] writes as valid JSON.
    - [Server] (Module [Server]): [route_methods] and [serve], the routes
      of lines 54, 58 and 114 with Flask's 404, 405, [HEAD] and [OPTIONS],
      one request on the MySQL table; [run], a sequence of requests with
      the database going down and up between them.  Each handler issues at
      most one statement on the table, so concurrent requests behave as the
      sequence of their statements.
    - [App] (Module [App]): the module's top level, [module_init]: the
      imports (1-7), [app = Flask(_name_, ...)] (9), [CORS(app)] (10), the
      [def]s, the three [@app.route] registrations and the main block
      (204-208), with Python's name lookup ([load]) over the globals and
      the builtins.

    ** What the theorems show

    - The application as written never starts: its top level raises
      [NameError] at line 9, and line 204 compares with ["_main_"], so its
      main block would not start the server either (C1).  The other
      theorems are about the handlers and helpers as the functions the
      file defines.

    - Ranges and failure modes of each score: the keystroke score is always
      a finite number in [0, 100] and fails closed; the geo buckets are
      those of the real square root; the decision refines its contract, is
      monotone; the total stays in range.
    - Handler behaviour on every branch: 400, 404, 403, 200 and 500 answers
      of [verify] and [enroll], the consistency of every scored answer, and
      that enrollment leaves other users untouched.
    - Round trip: enrolling then verifying with the same request allows.
    - Bounds: an [int] beyond the double range fails [enroll] and [verify]
      with [OverflowError], and ["1e400"], which [float()] makes infinite,
      is refused by MySQL.
    - Type of the answers: a [verify] body is valid JSON exactly unless the
      face score is not finite (C32).
    - Ordering: enrollments of different users commute, and for one user
      the later enrollment wins (C33); while the database is down no
      request that names a user gets past the 500 error, and none writes
      (C34).
    - Invariant and refinement: every reachable MySQL table is well formed
      (rule induction on [reachable]); enrollment on [MySQL] implements the
      abstract upsert of [enroll_spec] through [absr].
    - Findings: the unclamped face override combined with the optional
      password lets any known username be allowed on the face score alone
      (C2); the geo "distance" doubles the differences instead of squaring
      them, so [math.sqrt] fails for nearby points (C7, C15) and a whole line
      of far points scores 100 (C26); the keystroke score already reaches 0
      at 250/3, not at the 120 of the comment (C25); string coordinates are
      accepted by [enroll] and break [verify] (C16); a face score of
      ["Infinity"] yields an [allow] whose body is not JSON (C32).

    ** Idealisations, bounds and what is not modelled

    - Float arithmetic is exact on rationals: no rounding to doubles,
      decimal constants such as 0.55 are read as exact, and [-0.0] is not
      distinguished from [0.0].  The conversions to [float] do overflow as
      in Python ([float_of_int], [float_of_decimal]); the arithmetic on
      floats does not (a product such as [1e308 * 2] stays finite).  The
      scores involved are small (hundreds), where doubles are exact enough
      for the comparisons.
    - [math.sqrt] is kept symbolic ([Root q]); its comparisons are decided
      by squaring, and [root_lt_sqrt] relates them to the real square root.
    - No fuel is needed: every definition is structurally recursive (the
      string parser on the characters, [dict.get] on the pairs).
    - bcrypt is the [PasswordHasher] interface with the law that a hash
      checks against its own password, and the salt of [bcrypt.gensalt()]
      is an argument.  bcrypt itself is not modelled: one-wayness is not a
      property of a functional model, and the package is not pinned while
      its hash-format checks and its treatment of passwords over 72 bytes
      differ between versions (truncation in 4.0, [ValueError] in 5.0).
    - The table columns hold floats; only [str] usernames are keys of the
      [MySQL] model (the connector's conversion of other types is not
      modelled), and NaN, infinities, lists and dicts are rejected.  Keys
      are compared exactly: the schema is not in the repository, and
      under a case-insensitive collation (MySQL's default) usernames that
      differ only in case would share a row.
    - [Server] dispatches the routes the decorators declare; as written
      the module stops at line 9 (C1) and registers none, so [Server], like
      [Verify] and [Enroll], models the application the file defines.
    - [str()] of the username and of an exception, used in two bodies, are
      parameters of [Response]; the JSON text itself (key order, escapes)
      is not modelled, only which values it cannot represent.
    - The top level is modelled by the names it reads and binds and by the
      state it changes (routes, CORS on, browser opened, server running);
      the values of the imported modules are not.
    - Not modelled: the headers CORS adds, the HTML that [home] renders and
      the [print] calls, which only write to the console and cannot raise
      (the one that can, line 187, is modelled in [score_attempt]).  Since
      the module does not import as written ([_name_], C1), the handlers
      are modelled as the bodies of their functions.
*)

From stdpp Require Export base tactics option.
From Stdlib Require Export QArith Qabs Qminmax Qround Lqa ZArith.

(** ** Python exceptions

    The handlers of [src/acc.py] run inside [try ... except Exception]; the
    exceptions that the modelled lines can raise are these. *)
Inductive pyexc :=
| TypeError        (** arithmetic or [float()] on an unsupported type *)
| ValueError       (** [float()] of a malformed string, [math.sqrt] of a
                       negative number, [bcrypt.checkpw] of a bad hash *)
| AttributeError   (** [.get] or [.encode] on a value without that method *)
| OverflowError    (** [float()] of an [int] beyond the range of a double *)
| NameError        (** a name that is neither a global nor a builtin *)
| BadRequest       (** [request.get_json()] on a body that is not JSON *)
| DatabaseError.   (** [mysql.connector] connection or statement failure *)

(** ** A small exception monad *)

Inductive result (A : Type) :=
| Ok (a : A)
| Raise (e : pyexc).
Arguments Ok {A} a.
Arguments Raise {A} e.

#[export] Instance result_ret : MRet result := fun _ a => Ok a.
#[export] Instance result_bind : MBind result :=
  fun _ _ k r => match r with Ok a => k a | Raise e => Raise e end.
#[export] Instance result_fmap : FMap result :=
  fun _ _ f r => match r with Ok a => Ok (f a) | Raise e => Raise e end.

(** [try: body except: handler] where the handler ignores the exception. *)
Definition try_except {A} (r : result A) (handler : pyexc -> A) : A :=
  match r with Ok a => a | Raise e => handler e end.

Declare Scope py_scope.
Delimit Scope py_scope with py.
Notation "'raise' e" := (Raise e) (at level 10) : py_scope.

Lemma bind_Ok {A B} (a : A) (k : A -> result B) : (Ok a ≫= k) = k a.
Proof. reflexivity. Qed.

Lemma bind_Raise {A B} (e : pyexc) (k : A -> result B) : (Raise e ≫= k) = Raise e.
Proof. reflexivity. Qed.

Lemma bind_Ok_inv {A B} (r : result A) (k : A -> result B) (b : B) :
  (r ≫= k) = Ok b -> exists a, r = Ok a /\ k a = Ok b.
Proof. destruct r; simpl; [eauto | discriminate]. Qed.

(** [bind_inv] peels every successful bind in the hypotheses. *)
Ltac bind_inv :=
  repeat match goal with
  | H : (?r ≫= ?k) = Ok _ |- _ =>
      let a := fresh "a" in let Ha := fresh "Ha" in
      apply bind_Ok_inv in H; destruct H as (a & Ha & H)
  end.

Create HintDb cynlock.
Create Rewrite HintDb cynlock_rw.
#[export] Hint Rewrite @bind_Ok @bind_Raise : cynlock_rw.

(** ** Boolean comparisons on [Q] and their reflection *)

#[global] Arguments Qeq : simpl never.
#[global] Arguments Qle : simpl never.
#[global] Arguments Qlt : simpl never.

Definition Qltb (x y : Q) : bool := negb (Qle_bool y x).

Lemma Qle_bool_false (x y : Q) : Qle_bool x y = false -> y < x.
Proof.
  intros H. apply Qnot_le_lt. intros Hle. apply Qle_bool_iff in Hle. congruence.
Qed.

Lemma Qltb_true (x y : Q) : Qltb x y = true <-> x < y.
Proof.
  unfold Qltb. destruct (Qle_bool y x) eqn:E; simpl; split; intros H; try done.
  - apply Qle_bool_iff in E. exfalso. apply (Qlt_not_le _ _ H E).
  - now apply Qle_bool_false.
Qed.

Lemma Qltb_false (x y : Q) : Qltb x y = false <-> y <= x.
Proof.
  unfold Qltb. destruct (Qle_bool y x) eqn:E; simpl; split; intros H; try done.
  - now apply Qle_bool_iff.
  - apply Qle_bool_iff in H. congruence.
Qed.

(** [qbool] turns every boolean comparison in hypotheses into its
    proposition, and [qcase] splits the goal on the comparisons it mentions. *)
Ltac qbool :=
  repeat match goal with
  | H : Qle_bool _ _ = true |- _ => apply Qle_bool_iff in H
  | H : Qle_bool _ _ = false |- _ => apply Qle_bool_false in H
  | H : Qltb _ _ = true |- _ => apply Qltb_true in H
  | H : Qltb _ _ = false |- _ => apply Qltb_false in H
  end.

Ltac qcase :=
  repeat match goal with
  | |- context [Qle_bool ?a ?b] => let E := fresh "E" in destruct (Qle_bool a b) eqn:E
  | |- context [Qltb ?a ?b] => let E := fresh "E" in destruct (Qltb a b) eqn:E
  end; qbool.

(** [qconst] writes integer constants [inject_Z n] as the rationals [n # 1]
    that [lra] reads. *)
Ltac qconst :=
  repeat match goal with
  | |- context [inject_Z (Zpos ?p)] => change (inject_Z (Zpos p)) with (Zpos p # 1)
  | |- context [inject_Z Z0] => change (inject_Z Z0) with (0 # 1)
  | |- context [inject_Z (Zneg ?p)] => change (inject_Z (Zneg p)) with (Zneg p # 1)
  end.

Lemma Qle_bool_compat (a a' b b' : Q) : a == a' -> b == b' -> Qle_bool a b = Qle_bool a' b'.
Proof. intros Ha Hb. now rewrite Ha, Hb. Qed.

Lemma Qltb_compat (a a' b b' : Q) : a == a' -> b == b' -> Qltb a b = Qltb a' b'.
Proof. intros Ha Hb. unfold Qltb. now rewrite (Qle_bool_compat b b' a a'). Qed.
