(* ===== verification/PyFloat.v ===== *)
(** * Python floats

    The scores of [src/acc.py] are Python [float]s.  A float is modelled as an
    exact rational ([Fin q]) or one of the three special values, and every
    operation the code applies ([-], [+], [*] by a constant, [abs], [max],
    [round(x, 2)], comparisons, [math.sqrt]) follows the IEEE rules for the
    special values.  Finite arithmetic is exact: the rounding of each double
    operation is not modelled (see the header of [Prelude]). *)

From S2P Require Import Prelude.

From Stdlib Require Import QArith Qround Qabs Qminmax Lqa ZArith Reals Qreals.

Inductive pyfloat :=
| Fin (q : Q)
| PInf
| NInf
| NaN.

Definition is_finite (x : pyfloat) : bool :=
  match x with Fin _ => true | _ => false end.

(** Equality of the values denoted (not Python's [==]: here [NaN ≡ NaN]). *)
Definition feq (x y : pyfloat) : Prop :=
  match x, y with
  | Fin a, Fin b => a == b
  | PInf, PInf | NInf, NInf | NaN, NaN => True
  | _, _ => False
  end.

#[export] Instance pyfloat_equiv : Equiv pyfloat := feq.

#[export] Instance pyfloat_equivalence : Equivalence (≡@{pyfloat}).
Proof.
  split.
  - intros [q| | |]; simpl; [reflexivity | done..].
  - intros [a| | |] [b| | |]; simpl; try done; now symmetry.
  - intros [a| | |] [b| | |] [c| | |]; simpl; try done; intros H1 H2; exact (Qeq_trans _ _ _ H1 H2).
Qed.

Section Arith.
Local Open Scope Q_scope.

Definition fneg (x : pyfloat) : pyfloat :=
  match x with Fin q => Fin (- q) | PInf => NInf | NInf => PInf | NaN => NaN end.

Definition fadd (x y : pyfloat) : pyfloat :=
  match x, y with
  | NaN, _ | _, NaN => NaN
  | Fin a, Fin b => Fin (a + b)
  | PInf, NInf | NInf, PInf => NaN
  | PInf, _ | _, PInf => PInf
  | NInf, _ | _, NInf => NInf
  end.

Definition fsub (x y : pyfloat) : pyfloat := fadd x (fneg y).

(** an infinity times a finite [a]: NaN for zero, otherwise signed *)
Definition inf_times (positive : bool) (a : Q) : pyfloat :=
  if Qeq_bool a 0 then NaN
  else if eqb positive (Qltb 0 a) then PInf else NInf.

Definition fmul (x y : pyfloat) : pyfloat :=
  match x, y with
  | NaN, _ | _, NaN => NaN
  | Fin a, Fin b => Fin (a * b)
  | Fin a, PInf | PInf, Fin a => inf_times true a
  | Fin a, NInf | NInf, Fin a => inf_times false a
  | PInf, PInf | NInf, NInf => PInf
  | PInf, NInf | NInf, PInf => NInf
  end.

Definition fabs (x : pyfloat) : pyfloat :=
  match x with Fin q => Fin (Qabs q) | PInf | NInf => PInf | NaN => NaN end.

(** [x < y]: false as soon as one side is NaN *)
Definition flt (x y : pyfloat) : bool :=
  match x, y with
  | NaN, _ | _, NaN => false
  | Fin a, Fin b => Qltb a b
  | NInf, NInf => false
  | NInf, _ => true
  | _, NInf => false
  | PInf, _ => false
  | Fin _, PInf => true
  end.

(** [x >= y] *)
Definition fge (x y : pyfloat) : bool :=
  match x, y with
  | NaN, _ | _, NaN => false
  | _, _ => negb (flt x y)
  end.

(** Python's [max(a, b)]: [b] replaces [a] only when [b > a]. *)
Definition py_max (a b : pyfloat) : pyfloat := if flt a b then b else a.

(** Round half to even to an integer. *)
Definition round_half_even (q : Q) : Z :=
  let fl := Qfloor q in
  match Qcompare (q - inject_Z fl) (1 # 2) with
  | Lt => fl
  | Gt => (fl + 1)%Z
  | Eq => if Z.even fl then fl else (fl + 1)%Z
  end.

(** [round(x, 2)]: special values are returned unchanged. *)
Definition py_round2 (x : pyfloat) : pyfloat :=
  match x with
  | Fin q => Fin (round_half_even (q * 100) # 100)
  | _ => x
  end.

End Arith.

(** ** [math.sqrt]

    [math.sqrt] raises [ValueError] on a negative argument and maps NaN to
    NaN and infinity to infinity.  The root of a finite non-negative [q] is
    irrational in general, so it is kept symbolic as [Root q]; the code only
    compares it with constants, which [root_lt] decides exactly
    ([root_lt_sqrt] below). *)
Inductive pyroot :=
| Root (q : Q)
| RootInf
| RootNaN.

Definition math_sqrt (x : pyfloat) : result pyroot :=
  match x with
  | Fin q => if Qltb q 0 then Raise ValueError else Ok (Root q)
  | PInf => Ok RootInf
  | NInf => Raise ValueError
  | NaN => Ok RootNaN
  end.

(** [math.sqrt(q) < t] for a constant [t >= 0] *)
Definition root_lt (r : pyroot) (t : Q) : bool :=
  match r with Root q => Qltb q (t * t) | RootInf | RootNaN => false end.

(** ** Overflow of conversions to [float]

    A double holds magnitudes below [2^1024]; the largest one is
    [2^1024 - 2^971].  A conversion that rounds to nearest, ties to even,
    overflows exactly from the midpoint [2^1024 - 2^970] on.  [float(int)]
    and [float - int] (CPython's [PyLong_AsDouble]) raise [OverflowError]
    there, and [float(str)] (a correctly rounded [strtod]) gives an
    infinity. *)
Definition float_overflow_bound : Z := (2 ^ 1024 - 2 ^ 970)%Z.

(** [float(z)] for an [int] [z] *)
Definition float_of_int (z : Z) : result pyfloat :=
  if (Z.abs z <? float_overflow_bound)%Z then Ok (Fin (inject_Z z)) else Raise OverflowError.

(** a non-negative decimal value, rounded at the top of the double range *)
Definition float_of_decimal (q : Q) : pyfloat :=
  if Qle_bool (inject_Z float_overflow_bound) q then PInf else Fin q.

#[global] Arguments float_overflow_bound : simpl never.

(** ** Lemmas *)

Lemma feq_Fin (a b : Q) : Fin a ≡ Fin b <-> a == b.
Proof. reflexivity. Qed.

#[export] Instance Fin_proper : Proper (Qeq ==> (≡)) Fin.
Proof. intros a b H. exact H. Qed.

(** [fsimpl] evaluates the float operations without unfolding [≡] or [==]. *)
Ltac fsimpl :=
  cbn [fneg fadd fsub fmul fabs flt fge py_max py_round2 is_finite] in *;
  rewrite ?feq_Fin in *.

#[export] Instance fneg_proper : Proper ((≡) ==> (≡)) fneg.
Proof. intros [a| | |] [b| | |] H; fsimpl; try done; now rewrite H. Qed.

#[export] Instance fabs_proper : Proper ((≡) ==> (≡)) fabs.
Proof. intros [a| | |] [b| | |] H; fsimpl; try done; now rewrite H. Qed.

#[export] Instance fadd_proper : Proper ((≡) ==> (≡) ==> (≡)) fadd.
Proof.
  intros [a| | |] [b| | |] H [c| | |] [d| | |] H'; fsimpl; try done; now rewrite H, H'.
Qed.

#[export] Instance fsub_proper : Proper ((≡) ==> (≡) ==> (≡)) fsub.
Proof. intros x x' H y y' H'. unfold fsub. now rewrite H, H'. Qed.

Lemma inf_times_compat (s : bool) (a b : Q) : a == b -> inf_times s a = inf_times s b.
Proof.
  intros H. unfold inf_times.
  rewrite (Qltb_compat 0 0 a b) by (reflexivity || assumption).
  destruct (Qeq_bool a 0) eqn:Ea, (Qeq_bool b 0) eqn:Eb; try reflexivity;
    apply Qeq_bool_iff in Ea || apply Qeq_bool_iff in Eb;
    [apply Qeq_bool_neq in Eb | apply Qeq_bool_neq in Ea];
    exfalso; [apply Eb; now rewrite <- H | apply Ea; now rewrite H].
Qed.

#[export] Instance fmul_proper : Proper ((≡) ==> (≡) ==> (≡)) fmul.
Proof.
  intros [a| | |] [b| | |] H [c| | |] [d| | |] H'; fsimpl; try done;
    try (rewrite (inf_times_compat _ _ _ H) || rewrite (inf_times_compat _ _ _ H'));
    try reflexivity; now rewrite H, H'.
Qed.

#[export] Instance flt_proper : Proper ((≡) ==> (≡) ==> eq) flt.
Proof.
  intros [a| | |] [b| | |] H [c| | |] [d| | |] H'; fsimpl; try done;
  now apply Qltb_compat.
Qed.

#[export] Instance fge_proper : Proper ((≡) ==> (≡) ==> eq) fge.
Proof.
  intros x x' H y y' H'. unfold fge.
  rewrite (flt_proper x x' H y y' H').
  destruct x, x', y, y'; simpl in *; done.
Qed.

#[export] Instance py_max_proper : Proper ((≡) ==> (≡) ==> (≡)) py_max.
Proof.
  intros x x' H y y' H'. unfold py_max. rewrite (flt_proper x x' H y y' H').
  now destruct (flt x' y').
Qed.

Lemma round_half_even_compat (p q : Q) : p == q -> round_half_even p = round_half_even q.
Proof.
  intros H. unfold round_half_even.
  rewrite (Qfloor_comp p q H). now rewrite H.
Qed.

#[export] Instance py_round2_proper : Proper ((≡) ==> (≡)) py_round2.
Proof.
  intros [a| | |] [b| | |] H; fsimpl; try done.
  rewrite (round_half_even_compat (a * 100) (b * 100)) by now rewrite H.
  reflexivity.
Qed.

Lemma float_of_int_small (z : Z) :
  (Z.abs z < float_overflow_bound)%Z -> float_of_int z = Ok (Fin (inject_Z z)).
Proof. intros H. unfold float_of_int. now rewrite (proj2 (Z.ltb_lt _ _) H). Qed.

Lemma float_of_int_overflow (z : Z) :
  (float_overflow_bound <= Z.abs z)%Z -> float_of_int z = Raise OverflowError.
Proof. intros H. unfold float_of_int. now rewrite (proj2 (Z.ltb_ge _ _) H). Qed.

(** ** Rounding *)

Local Open Scope Q_scope.

Lemma round_half_even_cases (q : Q) :
  (round_half_even q = Qfloor q /\ q - inject_Z (Qfloor q) <= 1 # 2) \/
  (round_half_even q = (Qfloor q + 1)%Z /\ 1 # 2 <= q - inject_Z (Qfloor q)).
Proof.
  unfold round_half_even.
  destruct (Qcompare_spec (q - inject_Z (Qfloor q)) (1 # 2)) as [H|H|H].
  - destruct (Z.even _); [left | right]; split; try reflexivity; rewrite H; apply Qle_refl.
  - left. split; [reflexivity | now apply Qlt_le_weak].
  - right. split; [reflexivity | now apply Qlt_le_weak].
Qed.

Lemma Qfloor_bounds (q : Q) : inject_Z (Qfloor q) <= q /\ q < inject_Z (Qfloor q) + 1.
Proof.
  split; [apply Qfloor_le |]. rewrite <- (inject_Z_plus _ 1). apply Qlt_floor.
Qed.

(** The rounded integer is at most one half away. *)
Lemma round_half_even_close (q : Q) : Qabs (q - inject_Z (round_half_even q)) <= 1 # 2.
Proof.
  apply Qabs_Qle_condition. pose proof (Qfloor_bounds q) as F.
  destruct (round_half_even_cases q) as [[-> H]|[-> H]];
    rewrite ?inject_Z_plus; change (inject_Z 1) with 1; split; lra.
Qed.

(** Rounding keeps a value between two integers between them. *)
Lemma round_half_even_bounds (lo hi : Z) (q : Q) :
  inject_Z lo <= q -> q <= inject_Z hi -> (lo <= round_half_even q <= hi)%Z.
Proof.
  intros Hlo Hhi.
  pose proof (Qfloor_resp_le _ _ Hlo) as L. rewrite Qfloor_Z in L.
  pose proof (Qfloor_resp_le _ _ Hhi) as U. rewrite Qfloor_Z in U.
  destruct (round_half_even_cases q) as [[-> _]|[-> H]]; [lia |].
  split; [lia |].
  destruct (Z.eq_dec (Qfloor q) hi) as [E|E]; [| lia].
  rewrite E in H. exfalso. lra.
Qed.

Lemma round_half_even_Z (z : Z) : round_half_even (inject_Z z) = z.
Proof.
  unfold round_half_even. rewrite Qfloor_Z.
  destruct (Qcompare_spec (inject_Z z - inject_Z z) (1 # 2)) as [H|H|H];
    [exfalso; lra | reflexivity | exfalso; lra].
Qed.

(** A value with two decimals is left unchanged by [round(x, 2)]. *)
Lemma py_round2_hundredths (z : Z) : py_round2 (Fin (z # 100)) ≡ Fin (z # 100).
Proof.
  fsimpl. rewrite (round_half_even_compat _ (inject_Z z)); [now rewrite round_half_even_Z |].
  unfold Qeq; simpl. lia.
Qed.

(** [round(x, 2)] of a finite value in [[lo, hi]] (integers) stays in it. *)
Lemma py_round2_bounds (lo hi : Z) (q : Q) :
  inject_Z lo <= q -> q <= inject_Z hi ->
  exists r, py_round2 (Fin q) = Fin r /\ inject_Z lo <= r /\ r <= inject_Z hi.
Proof.
  intros Hlo Hhi. eexists; split; [reflexivity |].
  assert (B : (lo * 100 <= round_half_even (q * 100) <= hi * 100)%Z).
  { apply round_half_even_bounds; rewrite inject_Z_mult; change (inject_Z 100) with 100; lra. }
  unfold Qle; simpl. lia.
Qed.

(** ** The square root bridge: [root_lt] decides [sqrt q < t] exactly. *)
Lemma root_lt_sqrt (q t : Q) :
  0 <= q -> 0 <= t -> root_lt (Root q) t = true <-> (sqrt (Q2R q) < Q2R t)%R.
Proof.
  intros Hq Ht. simpl. rewrite Qltb_true.
  assert (E : Q2R t = sqrt (Q2R (t * t))).
  { rewrite Q2R_mult, sqrt_square; [reflexivity |].
    rewrite <- RMicromega.Q2R_0. now apply Qle_Rle. }
  rewrite E. split; intros H.
  - apply sqrt_lt_1_alt. split; [rewrite <- RMicromega.Q2R_0; now apply Qle_Rle |].
    now apply Qlt_Rlt.
  - apply Rlt_Qlt. now apply sqrt_lt_0_alt.
Qed.

(** ** Sign and range predicates shared by the scorers *)

(** [x >= 0], where NaN and infinity are allowed *)
Definition fnonneg (x : pyfloat) : Prop :=
  match x with Fin q => 0 <= q | PInf | NaN => True | NInf => False end.

(** [x <= hi] unless [x] is NaN *)
Definition fbelow (hi : Q) (x : pyfloat) : Prop :=
  match x with Fin q => q <= hi | NInf | NaN => True | PInf => False end.

(** a finite value in [[lo, hi]] *)
Definition fin_between (lo hi : Q) (x : pyfloat) : Prop :=
  match x with Fin q => lo <= q <= hi | _ => False end.

Lemma fabs_nonneg (x : pyfloat) : fnonneg (fabs x).
Proof. destruct x; simpl; auto. apply Qabs_nonneg. Qed.

Lemma fmul_pos_nonneg (x : pyfloat) (c : Q) : 0 < c -> fnonneg x -> fnonneg (fmul x (Fin c)).
Proof.
  intros Hc. destruct x as [q| | |]; simpl; try done.
  - intros Hq. apply Qmult_le_0_compat; lra.
  - unfold inf_times. destruct (Qeq_bool c 0) eqn:E; [done |].
    replace (Qltb 0 c) with true by (symmetry; now apply Qltb_true). done.
Qed.

Lemma fadd_nonneg (x y : pyfloat) : fnonneg x -> fnonneg y -> fnonneg (fadd x y).
Proof. destruct x, y; simpl; try done. intros; lra. Qed.

Lemma fsub_const_nonneg (c : Q) (w : pyfloat) : fnonneg w -> fbelow c (fsub (Fin c) w).
Proof. destruct w; simpl; try done. intros; lra. Qed.

Lemma py_max0_between (hi : Q) (s : pyfloat) :
  0 <= hi -> fbelow hi s -> fin_between 0 hi (py_max (Fin 0) s).
Proof.
  intros Hhi. unfold py_max. destruct s as [q| | |]; simpl; try done; try (split; lra).
  intros Hq. qcase; simpl; split; lra.
Qed.

Lemma py_round2_between (lo hi : Z) (x : pyfloat) :
  fin_between (inject_Z lo) (inject_Z hi) x -> fin_between (inject_Z lo) (inject_Z hi) (py_round2 x).
Proof.
  destruct x as [q| | |]; try done. intros [Hlo Hhi].
  destruct (py_round2_bounds lo hi q Hlo Hhi) as (r & -> & ?). done.
Qed.

#[export] Hint Resolve fabs_nonneg fmul_pos_nonneg fadd_nonneg fsub_const_nonneg
  py_max0_between py_round2_between : cynlock.

(** ** Order on finite values and monotonicity of rounding *)

Definition fin_le (x y : pyfloat) : Prop :=
  match x, y with Fin a, Fin b => a <= b | _, _ => False end.

Lemma py_max_Fin (a b : Q) : py_max (Fin a) (Fin b) ≡ Fin (Qmax a b).
Proof.
  unfold py_max. simpl. qcase; fsimpl.
  - symmetry. now apply Q.max_r, Qlt_le_weak.
  - symmetry. now apply Q.max_l.
Qed.

Lemma round_half_even_monotone (p q : Q) : p <= q -> (round_half_even p <= round_half_even q)%Z.
Proof.
  intros Hpq. pose proof (Qfloor_resp_le _ _ Hpq) as Hf.
  pose proof (Qfloor_bounds p) as Fp. pose proof (Qfloor_bounds q) as Fq.
  destruct (Z.eq_dec (Qfloor p) (Qfloor q)) as [E|E].
  - unfold round_half_even. rewrite E in *.
    destruct (Qcompare_spec (p - inject_Z (Qfloor q)) (1 # 2)) as [Hp|Hp|Hp];
    destruct (Qcompare_spec (q - inject_Z (Qfloor q)) (1 # 2)) as [Hq|Hq|Hq];
    try (destruct (Z.even _)); try lia; exfalso; lra.
  - destruct (round_half_even_cases p) as [[-> _]|[-> _]];
    destruct (round_half_even_cases q) as [[-> _]|[-> _]]; lia.
Qed.

Lemma round_half_even_lower (lo : Z) (q : Q) : inject_Z lo <= q -> (lo <= round_half_even q)%Z.
Proof. intros H. rewrite <- (round_half_even_Z lo). now apply round_half_even_monotone. Qed.

Lemma py_round2_monotone (a b : Q) : a <= b -> fin_le (py_round2 (Fin a)) (py_round2 (Fin b)).
Proof.
  intros H. simpl. unfold Qle; simpl.
  apply Z.mul_le_mono_nonneg_r; [lia |].
  apply round_half_even_monotone. lra.
Qed.

#[export] Instance fin_le_proper : Proper ((≡) ==> (≡) ==> iff) fin_le.
Proof.
  intros [a| | |] [b| | |] H [c| | |] [d| | |] H'; fsimpl; try done.
  simpl. now rewrite H, H'.
Qed.
