(* ===== verification/PyParse.v ===== *)
(** * [float()] of a string

    [src/acc.py] converts request fields with [float(...)] (lines 24-27,
    49, 85-88); a JSON string such as ["72.5"] reaches [float] unchanged.
    This file models CPython's [float(str)] on ASCII text: surrounding
    whitespace is stripped, then the text must be a signed decimal literal
    (digits with single underscores between them, an optional point, an
    optional exponent) or one of [inf], [infinity], [nan] in any case.
    Anything else raises [ValueError] ([None] here).  The value of a decimal
    literal is kept exact (see [PyFloat]). *)

From S2P Require Import Prelude PyFloat.
From stdpp Require Import strings.
From Stdlib Require Import Ascii String.

(** [str.isspace] on ASCII: 0x09-0x0D, 0x1C-0x1F and the space. *)
Definition is_py_space (c : ascii) : bool :=
  let n := nat_of_ascii c in
  ((9 <=? n) && (n <=? 13)) || ((28 <=? n) && (n <=? 32)).

Fixpoint lstrip (l : list ascii) : list ascii :=
  match l with
  | c :: l' => if is_py_space c then lstrip l' else l
  | [] => []
  end.

Definition strip (l : list ascii) : list ascii := rev (lstrip (rev (lstrip l))).

Definition is_digit (c : ascii) : bool :=
  let n := nat_of_ascii c in (48 <=? n) && (n <=? 57).

Definition digit_val (c : ascii) : Z := Z.of_nat (nat_of_ascii c - 48).

(** The rest of a [digitpart]: more digits, each possibly preceded by one
    underscore.  Returns the accumulated value, the number of digits read
    and the unread input. *)
Fixpoint digits_after (l : list ascii) (acc : Z) (n : nat) : Z * nat * list ascii :=
  match l with
  | c :: l' =>
      if is_digit c then digits_after l' (acc * 10 + digit_val c)%Z (S n)
      else if Ascii.eqb c "_"%char then
        match l' with
        | d :: l'' =>
            if is_digit d then digits_after l'' (acc * 10 + digit_val d)%Z (S n)
            else (acc, n, l)
        | [] => (acc, n, l)
        end
      else (acc, n, l)
  | [] => (acc, n, [])
  end.

(** [digitpart ::= digit (["_"] digit)*] *)
Definition digitpart (l : list ascii) : option (Z * nat * list ascii) :=
  match l with
  | c :: l' => if is_digit c then Some (digits_after l' (digit_val c) 1) else None
  | [] => None
  end.

(** [number ::= [digitpart] "." digitpart | digitpart ["."]]; the result
    [(m, k, rest)] denotes [m / 10^k]. *)
Definition parse_number (l : list ascii) : option (Z * nat * list ascii) :=
  match digitpart l with
  | Some (ip, _, r) =>
      match r with
      | "."%char :: r' =>
          match digitpart r' with
          | Some (fp, k, r'') => Some (ip * 10 ^ Z.of_nat k + fp, k, r'')%Z
          | None => Some (ip, O, r')
          end
      | _ => Some (ip, O, r)
      end
  | None =>
      match l with
      | "."%char :: r' => digitpart r'
      | _ => None
      end
  end.

(** an optional sign: [true] for [+] or no sign *)
Definition parse_sign (l : list ascii) : bool * list ascii :=
  match l with
  | "+"%char :: r => (true, r)
  | "-"%char :: r => (false, r)
  | _ => (true, l)
  end.

(** [exponent ::= ("e" | "E") [sign] digitpart], optional *)
Definition parse_exponent (l : list ascii) : option (Z * list ascii) :=
  match l with
  | c :: r =>
      if Ascii.eqb c "e"%char || Ascii.eqb c "E"%char then
        let (pos, r') := parse_sign r in
        match digitpart r' with
        | Some (e, _, r'') => Some (if pos then e else (- e)%Z, r'')
        | None => None
        end
      else Some (0%Z, l)
  | [] => Some (0%Z, [])
  end.

Definition decimal_value (m : Z) (k : nat) (e : Z) : Q :=
  let s := (e - Z.of_nat k)%Z in
  if (0 <=? s)%Z then inject_Z (m * 10 ^ s) else m # Z.to_pos (10 ^ (- s)).

Definition ascii_lower (c : ascii) : ascii :=
  let n := nat_of_ascii c in
  if (65 <=? n) && (n <=? 90) then ascii_of_nat (n + 32) else c.

(** [inf], [infinity] and [nan], case-insensitively *)
Definition parse_special (l : list ascii) : option pyfloat :=
  let w := map ascii_lower l in
  if decide (w = list_ascii_of_string "inf") then Some PInf
  else if decide (w = list_ascii_of_string "infinity") then Some PInf
  else if decide (w = list_ascii_of_string "nan") then Some NaN
  else None.

Definition parse_float_chars (l : list ascii) : option pyfloat :=
  let (pos, body) := parse_sign l in
  let signed x := if pos then x else fneg x in
  match parse_special body with
  | Some x => Some (signed x)
  | None =>
      match parse_number body with
      | Some (m, k, r) =>
          match parse_exponent r with
          | Some (e, []) => Some (signed (float_of_decimal (decimal_value m k e)))
          | _ => None
          end
      | None => None
      end
  end.

(** [float(s)] for a string [s]; [None] is the [ValueError]. *)
Definition parse_float (s : string) : option pyfloat :=
  parse_float_chars (strip (list_ascii_of_string s)).

