(* ===== verification/PyJson.v ===== *)
(** * Request values and the Python operations the handlers apply to them

    [request.get_json()] turns the body of a request into Python values:
    [None], [bool], [int], [float] (Python's JSON parser also accepts
    [NaN] and [Infinity]), [str], [list] and [dict].  This file holds that
    value type and the operations of [src/acc.py] on it: [dict.get] with a
    default, truthiness ([if not username]), [float(v)], and the coercion
    of an operand of [-]. *)

From S2P Require Import Prelude PyFloat PyParse.
From stdpp Require Import strings.
From Stdlib Require Import String.

#[warnings="-register-all"]
Inductive jval :=
| JNone
| JBool (b : bool)
| JInt (z : Z)
| JFloat (x : pyfloat)
| JStr (s : string)
| JList (l : list jval)
| JDict (kvs : list (string * jval)).

(** [json.loads] keeps the last of duplicated keys. *)
Fixpoint dict_lookup (k : string) (kvs : list (string * jval)) : option jval :=
  match kvs with
  | [] => None
  | (k', v) :: rest =>
      match dict_lookup k rest with
      | Some v' => Some v'
      | None => if String.eqb k k' then Some v else None
      end
  end.

(** [d.get(k, default)]: only a [dict] has [.get]. *)
Definition py_get (d : jval) (k : string) (default : jval) : result jval :=
  match d with
  | JDict kvs => Ok (match dict_lookup k kvs with Some v => v | None => default end)
  | _ => Raise AttributeError
  end.

(** [bool(v)] *)
Definition truthy (v : jval) : bool :=
  match v with
  | JNone => false
  | JBool b => b
  | JInt z => negb (Z.eqb z 0)
  | JFloat (Fin q) => negb (Qeq_bool q 0)
  | JFloat _ => true
  | JStr s => negb (String.eqb s "")
  | JList l => negb (bool_decide (l = []))
  | JDict kvs => negb (bool_decide (kvs = []))
  end.

(** [float(v)] *)
Definition py_float (v : jval) : result pyfloat :=
  match v with
  | JBool b => Ok (Fin (if b then 1 else 0))
  | JInt z => float_of_int z
  | JFloat x => Ok x
  | JStr s => match parse_float s with Some x => Ok x | None => Raise ValueError end
  | JNone | JList _ | JDict _ => Raise TypeError
  end.

(** The number a [bool], [int] or [float] operand of [float - v] denotes;
    any other operand raises [TypeError], and an [int] beyond the double
    range raises [OverflowError] as in [float(v)]. *)
Definition py_num (v : jval) : result pyfloat :=
  match v with
  | JBool b => Ok (Fin (if b then 1 else 0))
  | JInt z => float_of_int z
  | JFloat x => Ok x
  | _ => Raise TypeError
  end.

(** [s.encode('utf-8')]: only a [str] has [.encode].  Strings are ASCII in
    this model, so the encoding is the identity. *)
Definition py_encode (v : jval) : result string :=
  match v with JStr s => Ok s | _ => Raise AttributeError end.

(** ** Lemmas *)

Lemma py_get_dict (kvs : list (string * jval)) (k : string) (d : jval) :
  py_get (JDict kvs) k d = Ok (match dict_lookup k kvs with Some v => v | None => d end).
Proof. reflexivity. Qed.

Lemma py_get_not_dict (v : jval) (k : string) (d : jval) :
  (forall kvs, v <> JDict kvs) -> py_get v k d = Raise AttributeError.
Proof. destruct v; try reflexivity. intros H. now destruct (H kvs). Qed.

Lemma dict_lookup_last (k : string) (v : jval) (kvs : list (string * jval)) :
  dict_lookup k (kvs ++ [(k, v)]) = Some v.
Proof.
  induction kvs as [|[k' v'] rest IH]; simpl.
  - now rewrite String.eqb_refl.
  - now rewrite IH.
Qed.

Lemma py_num_float (v : jval) (x : pyfloat) : py_num v = Ok x -> py_float v = Ok x.
Proof. destruct v; simpl; congruence. Qed.

(** [request.get_json()]: the parsed body, or the [BadRequest] Flask raises
    when the body is not JSON ([None]). *)
Definition get_json (body : option jval) : result jval :=
  match body with Some v => Ok v | None => Raise BadRequest end.

(** the value [py_get] returns on a dict *)
Definition dict_get (kvs : list (string * jval)) (k : string) (default : jval) : jval :=
  match dict_lookup k kvs with Some v => v | None => default end.

Lemma py_get_dict_get (kvs : list (string * jval)) (k : string) (d : jval) :
  py_get (JDict kvs) k d = Ok (dict_get kvs k d).
Proof. reflexivity. Qed.

