(* ===== verification/Keystroke.v ===== *)
(** * Keystroke similarity scorer ([keystroke_similarity], src/acc.py 22-41)

    The stored and the submitted profile are dictionaries with the fields
    [avgDwell] and [avgFlight].  The four [float(d.get(field, 0))] reads
    ([keystroke_fields]) may raise; the arithmetic of lines 29-38
    ([keystroke_score]) cannot; the whole body sits in [try ... except
    Exception] and any exception yields [0.0] ([keystroke_similarity]). *)

From S2P Require Import Prelude PyFloat PyParse PyJson.
From stdpp Require Import strings.
From Stdlib Require Import String.

Module Keystroke.
Local Open Scope Q_scope.

(** [float(d.get('avgDwell', 0))], [float(d.get('avgFlight', 0))] *)
Definition keystroke_fields (d : jval) : result (pyfloat * pyfloat) :=
  dwell ← py_get d "avgDwell" (JInt 0) ≫= py_float;
  flight ← py_get d "avgFlight" (JInt 0) ≫= py_float;
  Ok (dwell, flight).

(** lines 29-38 *)
Definition keystroke_score (sd sf cd cf : pyfloat) : pyfloat :=
  let dwell_diff := fabs (fsub sd cd) in
  let flight_diff := fabs (fsub sf cf) in
  let weighted_diff := fadd (fmul dwell_diff (Fin (3 # 4))) (fmul flight_diff (Fin (1 # 4))) in
  let score := py_max (Fin 0) (fsub (Fin 100) (fmul weighted_diff (Fin (6 # 5)))) in
  py_round2 score.

(** lines 23-41 *)
Definition keystroke_similarity (stored current : jval) : pyfloat :=
  try_except
    ('(sd, sf) ← keystroke_fields stored;
     '(cd, cf) ← keystroke_fields current;
     Ok (keystroke_score sd sf cd cf))
    (fun _ => Fin 0).

(** The stored profile as [verify] builds it from a database row (line 157). *)
Definition stored_profile (dwell flight : pyfloat) : jval :=
  JDict [("avgDwell", JFloat dwell); ("avgFlight", JFloat flight)].

(** the weighted difference of lines 29-33 *)
Definition weighted_diff (sd sf cd cf : Q) : Q :=
  Qabs (sd - cd) * (3 # 4) + Qabs (sf - cf) * (1 # 4).

(** ** Lemmas *)

Lemma keystroke_fields_stored (d f : pyfloat) :
  keystroke_fields (stored_profile d f) = Ok (d, f).
Proof. reflexivity. Qed.

Lemma keystroke_similarity_Ok (stored current : jval) (sd sf cd cf : pyfloat) :
  keystroke_fields stored = Ok (sd, sf) -> keystroke_fields current = Ok (cd, cf) ->
  keystroke_similarity stored current = keystroke_score sd sf cd cf.
Proof. intros H1 H2. unfold keystroke_similarity. now rewrite H1, H2. Qed.

Lemma keystroke_score_range (sd sf cd cf : pyfloat) :
  fin_between 0 100 (keystroke_score sd sf cd cf).
Proof.
  unfold keystroke_score.
  apply (py_round2_between 0 100), (py_max0_between 100); [lra |].
  apply fsub_const_nonneg, fmul_pos_nonneg; [lra |].
  apply fadd_nonneg; apply fmul_pos_nonneg; auto with cynlock; lra.
Qed.

(** On finite inputs the score is the formula of the code, with [max]
    being the maximum of the two numbers. *)
Lemma keystroke_score_fin (sd sf cd cf : Q) :
  keystroke_score (Fin sd) (Fin sf) (Fin cd) (Fin cf) ≡
  py_round2 (Fin (Qmax 0 (100 - (Qabs (sd - cd) * (3 # 4) + Qabs (sf - cf) * (1 # 4)) * (6 # 5)))).
Proof. unfold keystroke_score. cbn [fsub fneg fadd fabs fmul]. now rewrite py_max_Fin. Qed.

Lemma weighted_diff_nonneg (sd sf cd cf : Q) : 0 <= weighted_diff sd sf cd cf.
Proof.
  unfold weighted_diff. pose proof (Qabs_nonneg (sd - cd)). pose proof (Qabs_nonneg (sf - cf)). lra.
Qed.

(** equal finite timings give the full score *)
Lemma keystroke_score_same (d f : Q) :
  keystroke_score (Fin d) (Fin f) (Fin d) (Fin f) ≡ Fin 100.
Proof.
  rewrite keystroke_score_fin.
  transitivity (py_round2 (Fin (10000 # 100))); [| now rewrite py_round2_hundredths].
  apply py_round2_proper, feq_Fin.
  assert (E1 : Qabs (d - d) == 0) by (rewrite Qabs_pos; lra).
  assert (E2 : Qabs (f - f) == 0) by (rewrite Qabs_pos; lra).
  rewrite E1, E2, Q.max_r; lra.
Qed.

(** the score of [verify] is a finite number in [[0, 100]] *)
Lemma keystroke_similarity_fin (stored current : jval) :
  exists q, keystroke_similarity stored current = Fin q /\ 0 <= q <= 100.
Proof.
  unfold keystroke_similarity.
  destruct (keystroke_fields stored) as [[sd sf]|e]; simpl; [| exists 0; split; [done | lra]].
  destruct (keystroke_fields current) as [[cd cf]|e]; simpl; [| exists 0; split; [done | lra]].
  pose proof (keystroke_score_range sd sf cd cf) as R.
  destruct (keystroke_score sd sf cd cf) as [q| | |]; try contradiction. eauto.
Qed.

Lemma keystroke_score_nonfinite (sd sf cd cf : pyfloat) :
  is_finite sd && is_finite sf && is_finite cd && is_finite cf = false ->
  keystroke_score sd sf cd cf ≡ Fin 0.
Proof.
  destruct sd, sf, cd, cf; simpl; intros H; try discriminate H; vm_compute; reflexivity.
Qed.

(** ** Properties *)

(** C4: whatever the stored and submitted values (malformed, missing, NaN
    or infinite included), the keystroke score is a finite number in
    [[0, 100]]. *)
Theorem keystroke_similarity_range (stored current : jval) :
  fin_between 0 100 (keystroke_similarity stored current).
Proof. destruct (keystroke_similarity_fin stored current) as (q & -> & R). exact R. Qed.

(** C13: equal finite timings score exactly 100. *)
Theorem keystroke_similarity_identical (d f : Q) (current : jval) :
  keystroke_fields current = Ok (Fin d, Fin f) ->
  keystroke_similarity (stored_profile (Fin d) (Fin f)) current ≡ Fin 100.
Proof.
  intros H. rewrite (keystroke_similarity_Ok _ _ _ _ _ _ (keystroke_fields_stored _ _) H).
  apply keystroke_score_same.
Qed.

(** C24: with finite inputs the score is [round(max(0, 100 - 1.2 * (0.75 *
    |dwell difference| + 0.25 * |flight difference|)), 2)], and a larger
    difference on both timings never raises it. *)
Theorem keystroke_score_antitone (sd sf cd cf sd' sf' cd' cf' : Q) :
  Qabs (sd - cd) <= Qabs (sd' - cd') -> Qabs (sf - cf) <= Qabs (sf' - cf') ->
  fin_le (keystroke_score (Fin sd') (Fin sf') (Fin cd') (Fin cf'))
         (keystroke_score (Fin sd) (Fin sf) (Fin cd) (Fin cf)).
Proof.
  intros Hd Hf. rewrite !keystroke_score_fin.
  apply py_round2_monotone, Q.max_le_compat_l. lra.
Qed.

(** C12: fail-closed.  When the submitted profile cannot be read (not a
    dict, a field that [float()] rejects) or carries a NaN or an infinity,
    the score is 0, whatever the stored profile. *)
Theorem keystroke_similarity_fail_closed (stored current : jval) :
  match keystroke_fields current with
  | Raise _ => True
  | Ok (cd, cf) => is_finite cd && is_finite cf = false
  end ->
  keystroke_similarity stored current ≡ Fin 0.
Proof.
  unfold keystroke_similarity.
  destruct (keystroke_fields stored) as [[sd sf]|e]; simpl; [| reflexivity].
  destruct (keystroke_fields current) as [[cd cf]|e]; simpl; [| reflexivity].
  intros H. apply keystroke_score_nonfinite.
  destruct (is_finite cd), (is_finite cf); try discriminate H; now rewrite ?andb_false_r.
Qed.

(** C25: with finite timings the score is already 0 once the weighted
    difference [0.75 * |dwell diff| + 0.25 * |flight diff|] reaches 250/3
    (about 83.3); the comment of line 35 puts that point at 120. *)
Theorem keystroke_score_zero_from (sd sf cd cf : Q) :
  250 # 3 <= weighted_diff sd sf cd cf ->
  keystroke_score (Fin sd) (Fin sf) (Fin cd) (Fin cf) ≡ Fin 0.
Proof.
  intros H. rewrite keystroke_score_fin. unfold weighted_diff in H.
  transitivity (py_round2 (Fin (0 # 100))); [| now rewrite py_round2_hundredths].
  apply py_round2_proper, feq_Fin. rewrite Q.max_l; lra.
Qed.

(** ** Witnesses *)

Lemma keystroke_similarity_identical_witness :
  keystroke_similarity (stored_profile (Fin 120) (Fin 80))
    (JDict [("avgDwell", JInt 120); ("avgFlight", JStr " 80 ")]) ≡ Fin 100.
Proof. apply (keystroke_similarity_identical 120 80). reflexivity. Defined.

Lemma keystroke_score_antitone_witness :
  fin_le (keystroke_score (Fin 100) (Fin 50) (Fin 130) (Fin 70))
         (keystroke_score (Fin 100) (Fin 50) (Fin 110) (Fin 60)).
Proof. apply keystroke_score_antitone; vm_compute; discriminate. Defined.

Lemma keystroke_similarity_fail_closed_witness :
  keystroke_similarity (stored_profile (Fin 100) (Fin 50))
    (JDict [("avgDwell", JStr "nan"); ("avgFlight", JInt 50)]) ≡ Fin 0.
Proof. apply keystroke_similarity_fail_closed. reflexivity. Defined.

Lemma keystroke_score_zero_from_witness :
  (weighted_diff 220 50 100 50 < 120) /\
  (keystroke_score (Fin 220) (Fin 50) (Fin 100) (Fin 50) ≡ Fin 0).
Proof.
  split; [vm_compute; reflexivity |].
  apply keystroke_score_zero_from. vm_compute. discriminate.
Defined.

End Keystroke.
