(* ===== verification/Face.v ===== *)
(** * Face score resolver ([face_score_from_value], src/acc.py 44-51)

    The client may send a [face_score]; it is converted with [float] and
    returned as it is, and a missing or unconvertible value gives the
    default [40.0].  The stored face image is never scored. *)

From S2P Require Import Prelude PyFloat PyParse PyJson.
From stdpp Require Import strings.
From Stdlib Require Import String.

Module Face.

(** lines 44-51: [None] gives 40.0; otherwise [float(val)], and the bare
    [except:] turns any failure into 40.0. *)
Definition face_score_from_value (val : jval) : pyfloat :=
  match val with
  | JNone => Fin 40
  | _ => try_except (py_float val) (fun _ => Fin 40)
  end.

(** ** Properties *)

(** C28: without an override, or with one that [float()] rejects (a list,
    a dict, a malformed string), the face score is the default 40. *)
Theorem face_score_default (val : jval) :
  val = JNone \/ (exists e, py_float val = Raise e) ->
  face_score_from_value val = Fin 40.
Proof.
  intros [-> | [e He]]; [reflexivity |].
  destruct val; simpl in *; rewrite ?He; try reflexivity; discriminate.
Qed.

(** C29: any override that [float()] accepts is the face score as it is:
    it is not clamped to [0, 100], so 1000, a negative number, [inf] or
    [nan] pass through. *)
Theorem face_score_unclamped (val : jval) (x : pyfloat) :
  py_float val = Ok x -> face_score_from_value val = x.
Proof. intros H. destruct val; try discriminate H; unfold face_score_from_value; now rewrite H. Qed.

(** ** Witnesses *)

Lemma face_score_default_witness :
  face_score_from_value (JStr "high") = Fin 40.
Proof. apply face_score_default. right. exists ValueError. reflexivity. Defined.

Lemma face_score_unclamped_witness :
  face_score_from_value (JStr "1e3") = Fin 1000 /\
  face_score_from_value (JStr "Infinity") = PInf.
Proof. split; apply face_score_unclamped; reflexivity. Defined.

End Face.
