(* ===== verification/Geo.v ===== *)
(** * Geo match scorer (src/acc.py 159-168, inside [verify])

    The submitted [lat] and [lon] are read with [geo.get(..., 0)] and used
    as they are (no [float()]), subtracted from the stored coordinates,
    and the "distance" is [math.sqrt((dlat)*2 + (dlon)*2)]: the deltas are
    doubled, not squared.  The distance is then put in one of three
    buckets: below 0.01 gives 100, below 0.03 gives 60, otherwise 0. *)

From S2P Require Import Prelude PyFloat PyParse PyJson.
From stdpp Require Import strings.
From Stdlib Require Import String Reals Qreals.

Module Geo.
Local Open Scope Q_scope.

(** the argument of [math.sqrt] on line 162 *)
Definition geo_radicand (ulat ulon lat lon : pyfloat) : pyfloat :=
  fadd (fmul (fsub ulat lat) (Fin 2)) (fmul (fsub ulon lon) (Fin 2)).

(** lines 163-168 *)
Definition geo_bucket (dist : pyroot) : Z :=
  if root_lt dist (1 # 100) then 100%Z
  else if root_lt dist (3 # 100) then 60%Z
  else 0%Z.

(** lines 160-168; [ulat], [ulon] are the stored [latitude], [longitude] *)
Definition geo_score (ulat ulon : pyfloat) (geo : jval) : result Z :=
  lat ← py_get geo "lat" (JInt 0);
  lon ← py_get geo "lon" (JInt 0);
  latv ← py_num lat;
  lonv ← py_num lon;
  dist ← math_sqrt (geo_radicand ulat ulon latv lonv);
  Ok (geo_bucket dist).

(** a submitted location with float coordinates *)
Definition geo_point (lat lon : Q) : jval :=
  JDict [("lat", JFloat (Fin lat)); ("lon", JFloat (Fin lon))].

(** ** Lemmas *)

Lemma geo_radicand_fin (a b c d : Q) :
  geo_radicand (Fin a) (Fin b) (Fin c) (Fin d) = Fin ((a - c) * 2 + (b - d) * 2).
Proof. reflexivity. Qed.

Lemma geo_score_point (a b c d : Q) :
  geo_score (Fin a) (Fin b) (geo_point c d) =
  math_sqrt (Fin ((a - c) * 2 + (b - d) * 2)) ≫= (fun dist => Ok (geo_bucket dist)).
Proof. reflexivity. Qed.

Lemma geo_bucket_values (r : pyroot) : geo_bucket r = 0%Z \/ geo_bucket r = 60%Z \/ geo_bucket r = 100%Z.
Proof. unfold geo_bucket. destruct (root_lt r (1 # 100)), (root_lt r (3 # 100)); auto. Qed.

Lemma geo_score_values (a b : pyfloat) (geo : jval) (g : Z) :
  geo_score a b geo = Ok g -> g = 0%Z \/ g = 60%Z \/ g = 100%Z.
Proof. unfold geo_score. intros H. bind_inv. injection H as <-. apply geo_bucket_values. Qed.

(** A NaN latitude makes the radicand NaN whatever the stored point:
    [math.sqrt] returns NaN and the score is 0, without an exception. *)
Lemma geo_score_nan_lat (a b : pyfloat) :
  geo_score a b (JDict [("lat", JFloat NaN)]) = Ok 0%Z.
Proof. destruct a, b; reflexivity. Qed.

(** a negative radicand: [math.sqrt] raises *)
Lemma geo_score_point_negative (a b c d : Q) :
  (a - c) * 2 + (b - d) * 2 < 0 -> geo_score (Fin a) (Fin b) (geo_point c d) = Raise ValueError.
Proof.
  intros H. rewrite geo_score_point. unfold math_sqrt.
  replace (Qltb ((a - c) * 2 + (b - d) * 2) 0) with true; [reflexivity |].
  symmetry. now apply Qltb_true.
Qed.

(** a zero radicand is a distance of 0: full score *)
Lemma geo_score_zero_radicand (a b c d : Q) :
  (a - c) * 2 + (b - d) * 2 == 0 -> geo_score (Fin a) (Fin b) (geo_point c d) = Ok 100%Z.
Proof.
  intros E. rewrite geo_score_point. unfold math_sqrt.
  rewrite (Qltb_compat _ 0 0 0 E (Qeq_refl 0)). simpl.
  unfold geo_bucket, root_lt. rewrite (Qltb_compat _ 0 _ _ E (Qeq_refl _)). reflexivity.
Qed.

(** ** Properties *)

(** C14: the buckets are those of the real square root: for a non-negative
    radicand [q], [geo_bucket] gives 100 when [sqrt q < 0.01], 60 when
    [0.01 <= sqrt q < 0.03], and 0 otherwise. *)
Theorem geo_bucket_sqrt (q : Q) :
  0 <= q ->
  geo_bucket (Root q) =
  if Rlt_dec (sqrt (Q2R q)) (Q2R (1 # 100)) then 100%Z
  else if Rlt_dec (sqrt (Q2R q)) (Q2R (3 # 100)) then 60%Z
  else 0%Z.
Proof.
  intros Hq. unfold geo_bucket.
  destruct (Rlt_dec _ (Q2R (1 # 100))) as [H1|H1];
    [apply root_lt_sqrt in H1; [now rewrite H1 | done | discriminate] |].
  destruct (root_lt (Root q) (1 # 100)) eqn:E1;
    [apply root_lt_sqrt in E1; [contradiction | done | discriminate] |].
  destruct (Rlt_dec _ (Q2R (3 # 100))) as [H3|H3];
    [apply root_lt_sqrt in H3; [now rewrite H3 | done | discriminate] |].
  destruct (root_lt (Root q) (3 # 100)) eqn:E3;
    [apply root_lt_sqrt in E3; [contradiction | done | discriminate] | reflexivity].
Qed.

(** C7: [math.sqrt] gets a negative argument, and [verify] fails with a
    [ValueError], as soon as the submitted [lat + lon] exceeds the stored
    [latitude + longitude], however close the two points are. *)
Theorem geo_score_negative_raises (a b c d : Q) :
  a + b < c + d -> geo_score (Fin a) (Fin b) (geo_point c d) = Raise ValueError.
Proof. intros H. apply geo_score_point_negative. lra. Qed.

(** C26: every submitted point on the line [lat + lon = latitude +
    longitude] gets the full geo score 100, however far away it is. *)
Theorem geo_score_antidiagonal (a b t : Q) :
  geo_score (Fin a) (Fin b) (geo_point (a + t) (b - t)) = Ok 100%Z.
Proof. apply geo_score_zero_radicand. lra. Qed.

(** C27: a location that is not a dict fails with [AttributeError], and a
    coordinate that is not a number (a string such as ["48.85"], which
    [enroll] accepts through [float()]) fails with [TypeError]. *)
Theorem geo_score_type_errors (a b : pyfloat) (geo : jval) (s : string) :
  ((forall kvs, geo <> JDict kvs) -> geo_score a b geo = Raise AttributeError) /\
  geo_score a b (JDict [("lat", JStr s)]) = Raise TypeError.
Proof.
  split; [intros H; unfold geo_score; rewrite (py_get_not_dict geo "lat" (JInt 0) H); reflexivity | reflexivity].
Qed.

(** ** Witnesses *)

Lemma geo_bucket_sqrt_witness :
  geo_bucket (Root (1 # 40000)) = 100%Z.
Proof.
  rewrite geo_bucket_sqrt by (unfold Qle; simpl; lia).
  destruct (Rlt_dec _ _) as [H|H]; [reflexivity |].
  exfalso. apply H. apply root_lt_sqrt; [unfold Qle; simpl; lia | discriminate | reflexivity].
Defined.

Lemma geo_score_negative_raises_witness :
  geo_score (Fin 10) (Fin 20) (geo_point (10 + (1 # 100000)) 20) = Raise ValueError.
Proof. apply geo_score_negative_raises. vm_compute. reflexivity. Defined.

Lemma geo_score_type_errors_witness :
  geo_score (Fin 10) (Fin 20) (JList []) = Raise AttributeError.
Proof. apply (geo_score_type_errors _ _ _ ""). discriminate. Defined.

End Geo.
