(* ===== verification/Decision.v ===== *)
(** * Decision engine (src/acc.py 174-183, inside [verify])

    The three scores are blended with the weights 0.55, 0.25 and 0.20,
    rounded to two decimals, and the total is compared with 75 and 55, the
    higher threshold first.  [decision_spec] is the contract of the
    decision as the specification states it, on exact totals; the decision
    of the code refines it. *)

From S2P Require Import Prelude PyFloat.

Module Decision.
Local Open Scope Q_scope.

Inductive decision := Allow | Mfa | Block.

#[export] Instance decision_eq_dec : EqDecision decision.
Proof. solve_decision. Defined.

(** line 175: [kscore] and [fscore] are floats, [geoscore] an int *)
Definition total_score (kscore fscore : pyfloat) (geoscore : Z) : pyfloat :=
  py_round2 (fadd (fadd (fmul kscore (Fin (55 # 100))) (fmul fscore (Fin (25 # 100))))
                  (fmul (Fin (inject_Z geoscore)) (Fin (20 # 100)))).

(** lines 178-183 *)
Definition decision_of_total (total : pyfloat) : decision :=
  if fge total (Fin 75) then Allow
  else if fge total (Fin 55) then Mfa
  else Block.

(** The contract of the decision on a finite total. *)
Inductive decision_spec : Q -> decision -> Prop :=
| spec_allow t : 75 <= t -> decision_spec t Allow
| spec_mfa t : 55 <= t -> t < 75 -> decision_spec t Mfa
| spec_block t : t < 55 -> decision_spec t Block.

Definition decision_rank (d : decision) : nat :=
  match d with Block => 0 | Mfa => 1 | Allow => 2 end.

(** ** Lemmas *)

Lemma fge_Fin (a b : Q) : fge (Fin a) (Fin b) = Qle_bool b a.
Proof. unfold fge, flt, Qltb. now destruct (Qle_bool b a). Qed.

Lemma decision_of_total_Fin (t : Q) :
  decision_of_total (Fin t) =
  if Qle_bool 75 t then Allow else if Qle_bool 55 t then Mfa else Block.
Proof. unfold decision_of_total. now rewrite !fge_Fin. Qed.

Lemma total_score_Fin (k f : Q) (g : Z) :
  total_score (Fin k) (Fin f) g = py_round2 (Fin (k * (55 # 100) + f * (25 # 100) + inject_Z g * (20 # 100))).
Proof. reflexivity. Qed.

(** with a finite keystroke score, the total is finite exactly when the
    face score is: the geo score is an [int] *)
Lemma total_score_finite (k : Q) (f : pyfloat) (g : Z) :
  is_finite (total_score (Fin k) f g) = is_finite f.
Proof. destruct f; reflexivity. Qed.

#[export] Instance total_score_proper : Proper ((≡) ==> (≡) ==> eq ==> (≡)) total_score.
Proof. intros k k' Hk f f' Hf g g' <-. unfold total_score. now rewrite Hk, Hf. Qed.

#[export] Instance decision_of_total_proper : Proper ((≡) ==> eq) decision_of_total.
Proof.
  intros t t' Ht. unfold decision_of_total.
  rewrite (fge_proper t t' Ht (Fin 75) (Fin 75)), (fge_proper t t' Ht (Fin 55) (Fin 55));
    reflexivity.
Qed.

(** a total of at least 75 before rounding is allowed *)
Lemma decision_of_round_allow (x : Q) : 75 <= x -> decision_of_total (py_round2 (Fin x)) = Allow.
Proof.
  intros H. cbn [py_round2]. rewrite decision_of_total_Fin.
  assert (B : (7500 <= round_half_even (x * 100))%Z).
  { apply round_half_even_lower. change (inject_Z 7500) with 7500. lra. }
  replace (Qle_bool 75 _) with true; [reflexivity |].
  symmetry. apply Qle_bool_iff. unfold Qle; simpl. lia.
Qed.

(** ** Properties *)

(** C5: on a finite total the decision of the code is the one the
    contract [decision_spec] allows, and only that one: [allow] from 75,
    [mfa] from 55 below 75, [block] below 55. *)
Theorem decision_of_total_spec (t : Q) (d : decision) :
  decision_of_total (Fin t) = d <-> decision_spec t d.
Proof.
  rewrite decision_of_total_Fin. split.
  - intros <-. qcase; constructor; lra.
  - intros Hs. inversion Hs; subst; qcase; try reflexivity; exfalso; lra.
Qed.

(** C22: a higher total never gets a weaker decision. *)
Theorem decision_monotone (t1 t2 : pyfloat) :
  fin_le t1 t2 -> (decision_rank (decision_of_total t1) <= decision_rank (decision_of_total t2))%nat.
Proof.
  destruct t1 as [a| | |], t2 as [b| | |]; simpl; try done.
  intros H. rewrite !decision_of_total_Fin. qcase; simpl; lia || (exfalso; lra).
Qed.

(** C23: when the three scores lie in [[0, 100]], so does the total. *)
Theorem total_score_range (k f : pyfloat) (g : Z) :
  fin_between 0 100 k -> fin_between 0 100 f -> (0 <= g <= 100)%Z ->
  fin_between 0 100 (total_score k f g).
Proof.
  destruct k as [k| | |], f as [f| | |]; try done. intros [Hk1 Hk2] [Hf1 Hf2] Hg.
  rewrite total_score_Fin. apply (py_round2_between 0 100).
  assert (0 <= inject_Z g <= 100)
    by (split; [change 0 with (inject_Z 0) | change 100 with (inject_Z 100)]; rewrite <- Zle_Qle; lia).
  simpl. change (inject_Z 0) with 0. change (inject_Z 100) with 100. split; lra.
Qed.

(** ** Witnesses *)

Lemma decision_of_total_spec_witness : decision_spec (7499 # 100) Mfa.
Proof. apply decision_of_total_spec. vm_compute. reflexivity. Defined.

Lemma decision_monotone_witness :
  (decision_rank (decision_of_total (Fin 60)) <= decision_rank (decision_of_total (Fin 80)))%nat.
Proof. apply decision_monotone. simpl. unfold Qle; simpl. lia. Defined.

Lemma total_score_range_witness : fin_between 0 100 (total_score (Fin 100) (Fin 40) 100).
Proof. apply total_score_range; simpl; try split; unfold Qle; simpl; lia. Defined.

End Decision.
