(* ===== verification/Store.v ===== *)
(** * Collaborators: the [users] table and the password hasher

    [src/acc.py] reaches MySQL through [get_db()] (lines 13-19) and two
    statements: [SELECT * FROM users WHERE username=%s] with [fetchone()]
    in [verify] (138-143), and [INSERT ... ON DUPLICATE KEY UPDATE] of
    every column followed by [commit()] in [enroll] (90-105).  Passwords go
    through [bcrypt.hashpw] and [bcrypt.checkpw].

    Both collaborators are interfaces here ([UserStore], [PasswordHasher])
    with the laws the handlers rely on ([UserStoreLaws],
    [PasswordHasherLaws]); the handler theorems are proved against the
    interfaces.  [MySQL] is an instance of the store: a finite map from
    usernames to rows that may be unreachable; [plain_hasher] is a lawful
    hasher used only to run the examples. *)

From S2P Require Import Prelude PyFloat PyParse PyJson.
From stdpp Require Import gmap strings.
From Stdlib Require Import String.

Module Store.

(** The columns of a row of [users] besides the key [username]. *)
Record user_row := {
  password_hash : string;
  avgDwell : pyfloat;
  avgFlight : pyfloat;
  face : jval;
  latitude : pyfloat;
  longitude : pyfloat;
}.

(** [get_db()] followed by one statement; the key is the [username] value of
    the request as the code passes it. *)
Class UserStore (S : Type) := {
  store_select : S -> jval -> result (option user_row);
  store_upsert : S -> jval -> user_row -> result S;
}.

Class UserStoreLaws (S : Type) `{UserStore S} := {
  upsert_select_eq : forall s s' k r,
    store_upsert s k r = Ok s' -> store_select s' k = Ok (Some r);
  upsert_select_ne : forall s s' k k' r,
    store_upsert s k r = Ok s' -> k' <> k -> store_select s' k' = store_select s k';
}.

Class PasswordHasher := {
  salt : Type;
  hashpw : string -> salt -> string;
  checkpw : string -> string -> result bool;
}.

Class PasswordHasherLaws `{PasswordHasher} := {
  checkpw_hashpw : forall p s, checkpw p (hashpw p s) = Ok true;
}.

(** ** The MySQL instance *)

Record mysql_db := {
  db_up : bool;
  db_users : gmap string user_row;
}.

(** MySQL stores no NaN or infinity, and the connector converts no list or
    dict to a SQL value: such a parameter makes the statement fail. *)
Definition sql_value (v : jval) : bool :=
  match v with
  | JFloat x => is_finite x
  | JList _ | JDict _ => false
  | _ => true
  end.

Definition row_storable (r : user_row) : bool :=
  is_finite (avgDwell r) && is_finite (avgFlight r) && sql_value (face r) &&
  is_finite (latitude r) && is_finite (longitude r).

(** The key column is text; only a [str] username is modelled as a key,
    and keys are compared exactly.  The schema is not in the repository:
    under MySQL's default case-insensitive collations ["Alice"] and
    ["alice"] would name the same row, which this model does not do. *)
Definition sql_key (k : jval) : option string :=
  match k with JStr s => Some s | _ => None end.

Definition mysql_select (db : mysql_db) (k : jval) : result (option user_row) :=
  if db_up db then
    match sql_key k with Some s => Ok (db_users db !! s) | None => Raise DatabaseError end
  else Raise DatabaseError.

Definition mysql_upsert (db : mysql_db) (k : jval) (r : user_row) : result mysql_db :=
  if db_up db then
    match sql_key k with
    | Some s =>
        if row_storable r then Ok {| db_up := true; db_users := <[s := r]> (db_users db) |}
        else Raise DatabaseError
    | None => Raise DatabaseError
    end
  else Raise DatabaseError.

#[export] Instance MySQL : UserStore mysql_db :=
  {| store_select := mysql_select; store_upsert := mysql_upsert |}.

(** ** A lawful hasher for the examples

    Not bcrypt: it keeps the password readable, which is enough to run the
    handlers on concrete requests. *)
Definition plain_hash (p : string) (_ : unit) : string := "h:" ++ p.

(** an empty hash is malformed, as for [bcrypt.checkpw] *)
Definition plain_check (p h : string) : result bool :=
  if String.eqb h "" then Raise ValueError else Ok (String.eqb ("h:" ++ p) h).

#[export] Instance plain_hasher : PasswordHasher :=
  {| salt := unit; hashpw := plain_hash; checkpw := plain_check |}.

(** ** Lemmas *)

Lemma mysql_upsert_Ok (db db' : mysql_db) (k : jval) (r : user_row) :
  mysql_upsert db k r = Ok db' ->
  exists s, k = JStr s /\ db_up db = true /\ row_storable r = true /\
            db' = {| db_up := true; db_users := <[s := r]> (db_users db) |}.
Proof.
  unfold mysql_upsert. destruct (db_up db), k; simpl; try discriminate.
  destruct (row_storable r) eqn:E; [|discriminate]. intros [= <-]. eauto.
Qed.

(** only a [str] username finds a row *)
Lemma mysql_select_key (db : mysql_db) (k : jval) (r : user_row) :
  mysql_select db k = Ok (Some r) -> exists s, k = JStr s.
Proof. unfold mysql_select. destruct (db_up db), k; simpl; try discriminate. eauto. Qed.

#[export] Instance MySQL_laws : UserStoreLaws mysql_db.
Proof.
  split; simpl.
  - intros s s' k r H. apply mysql_upsert_Ok in H as (u & -> & Hup & _ & ->).
    unfold mysql_select. simpl. now rewrite lookup_insert_eq.
  - intros s s' k k' r H Hne. apply mysql_upsert_Ok in H as (u & -> & Hup & _ & ->).
    unfold mysql_select. simpl. rewrite Hup.
    destruct k' as [| | | |u'| |]; try reflexivity.
    simpl. rewrite lookup_insert_ne; [reflexivity | congruence].
Qed.

#[export] Instance plain_hasher_laws : PasswordHasherLaws.
Proof.
  split. intros p s. simpl. unfold plain_check, plain_hash. rewrite String.eqb_refl.
  reflexivity.
Qed.

End Store.
