(* ===== verification/Verify.v ===== *)
(** * The verification handler ([verify], src/acc.py 114-201)

    [verify] reads the request fields, rejects a missing username (400),
    looks the user up (404 when absent), checks the password only when one
    is sent (403 on a mismatch), then computes the three scores, the total
    and the decision (200).  Any exception on the way ends in the 500
    response of the [except Exception] clause.  The handler is defined for
    any [UserStore] and [PasswordHasher]. *)

From S2P Require Import Prelude PyFloat PyParse PyJson Keystroke Face Geo Decision Store.
From stdpp Require Import strings.
From Stdlib Require Import String.

Module Verify.
Import Keystroke.Keystroke Face.Face Geo.Geo Decision.Decision Store.Store.

Inductive verify_response :=
| VMissingUsername                  (** 400, [username required] *)
| VUserNotFound                     (** 404, [block], [user not found] *)
| VPasswordIncorrect                (** 403, [block], [password incorrect] *)
| VScored (username : jval) (keystroke_score face_score : pyfloat) (geo_score : Z)
          (total_score : pyfloat) (result : decision)   (** 200 *)
| VFailed (e : pyexc).              (** 500, [Verification failed] *)

Definition verify_status (r : verify_response) : Z :=
  match r with
  | VMissingUsername => 400
  | VUserNotFound => 404
  | VPasswordIncorrect => 403
  | VScored _ _ _ _ _ _ => 200
  | VFailed _ => 500
  end.

(** Fixtures for the witnesses: a table with one user, [alice], enrolled with the password [pw], the
    timings 100/50 and the location (10, 20). *)

Definition alice_row : user_row :=
  {| password_hash := "h:pw"; avgDwell := Fin 100; avgFlight := Fin 50; face := JNone;
     latitude := Fin 10; longitude := Fin 20 |}.

Definition demo_db : mysql_db := {| db_up := true; db_users := {[ "alice" := alice_row ]} |}.

(** a verifier that rejects every password *)
#[local] Instance reject_hasher : PasswordHasher :=
  {| salt := unit; hashpw := fun _ _ => "x"%string; checkpw := fun _ _ => Ok false |}.

Section Handler.
Context {S : Type} {store : UserStore S} {hasher : PasswordHasher}.

(** lines 150-154: the password is checked only when it is truthy *)
Definition check_password (password : jval) (row : user_row) : result bool :=
  if truthy password then
    pw ← py_encode password;
    checkpw pw (password_hash row)
  else Ok true.

(** lines 156-197: the scores, the total, the decision and the response *)
Definition score_attempt (username : jval) (row : user_row) (ks geo face_score_override : jval)
    : result verify_response :=
  let kscore := keystroke_similarity (stored_profile (avgDwell row) (avgFlight row)) ks in
  geoscore ← geo_score (latitude row) (longitude row) geo;
  let fscore := face_score_from_value face_score_override in
  let total := total_score kscore fscore geoscore in
  (* line 187 prints [ks.get('avgDwell')] and [ks.get('avgFlight')] *)
  _ ← py_get ks "avgDwell" JNone;
  _ ← py_get ks "avgFlight" JNone;
  Ok (VScored username kscore fscore geoscore total (decision_of_total total)).

(** lines 135-197, once the fields are read *)
Definition verify_user (st : S) (username password ks geo face_score_override : jval)
    : result verify_response :=
  if negb (truthy username) then Ok VMissingUsername else
  user ← store_select st username;
  match user with
  | None => Ok VUserNotFound
  | Some row =>
      ok ← check_password password row;
      if negb ok then Ok VPasswordIncorrect
      else score_attempt username row ks geo face_score_override
  end.

(** the body of the [try] block, lines 127-197 *)
Definition verify_body (st : S) (body : option jval) : result verify_response :=
  data ← get_json body;
  username ← py_get data "username" JNone;
  password ← py_get data "password" JNone;
  ks ← py_get data "keystroke" (JDict []);
  geo ← py_get data "geo" (JDict []);
  _ ← py_get data "face" JNone;
  face_score_override ← py_get data "face_score" JNone;
  verify_user st username password ks geo face_score_override.

(** lines 126-201 *)
Definition verify (st : S) (body : option jval) : verify_response :=
  try_except (verify_body st body) VFailed.

(** ** Lemmas *)

Lemma verify_dict (st : S) (kvs : list (string * jval)) :
  verify st (Some (JDict kvs)) =
  try_except (verify_user st (dict_get kvs "username" JNone) (dict_get kvs "password" JNone)
                (dict_get kvs "keystroke" (JDict [])) (dict_get kvs "geo" (JDict []))
                (dict_get kvs "face_score" JNone)) VFailed.
Proof. reflexivity. Qed.

Lemma verify_user_found (st : S) (u password ks geo fo : jval) (row : user_row) :
  truthy u = true -> store_select st u = Ok (Some row) ->
  verify_user st u password ks geo fo =
  ok ← check_password password row;
  if negb ok then Ok VPasswordIncorrect else score_attempt u row ks geo fo.
Proof. intros Hu Hs. unfold verify_user. now rewrite Hu, Hs. Qed.

(** a request naming a user the store holds: the password check, then
    the scoring, inside the [try] *)
Lemma verify_known_user (st : S) (kvs : list (string * jval)) (u : string) (row : user_row) :
  dict_get kvs "username" JNone = JStr u -> u <> ""%string ->
  store_select st (JStr u) = Ok (Some row) ->
  verify st (Some (JDict kvs)) =
  try_except (ok ← check_password (dict_get kvs "password" JNone) row;
              if negb ok then Ok VPasswordIncorrect
              else score_attempt (JStr u) row (dict_get kvs "keystroke" (JDict []))
                     (dict_get kvs "geo" (JDict [])) (dict_get kvs "face_score" JNone)) VFailed.
Proof.
  intros Hu Hne Hs. apply String.eqb_neq in Hne. rewrite verify_dict, Hu.
  rewrite (verify_user_found _ _ _ _ _ _ row); [reflexivity | | exact Hs]. simpl. now rewrite Hne.
Qed.

Lemma check_password_falsy (password : jval) (row : user_row) :
  truthy password = false -> check_password password row = Ok true.
Proof. intros H. unfold check_password. now rewrite H. Qed.

Lemma verify_user_Ok_scored (st : S) (u pw ks geo fo u' : jval) (k f t : pyfloat) (g : Z) (d : decision) :
  verify_user st u pw ks geo fo = Ok (VScored u' k f g t d) ->
  truthy u = true /\ exists row, store_select st u = Ok (Some row) /\
                                  score_attempt u row ks geo fo = Ok (VScored u' k f g t d).
Proof.
  unfold verify_user. destruct (truthy u); simpl; [| discriminate].
  intros H. bind_inv. destruct a as [row|]; [| discriminate]. bind_inv.
  destruct a; simpl in H; [| discriminate]. eauto.
Qed.

Lemma score_attempt_Ok (u : jval) (row : user_row) (ks geo fo u' : jval)
    (k f t : pyfloat) (g : Z) (d : decision) :
  score_attempt u row ks geo fo = Ok (VScored u' k f g t d) ->
  u' = u /\ k = keystroke_similarity (stored_profile (avgDwell row) (avgFlight row)) ks /\
  geo_score (latitude row) (longitude row) geo = Ok g /\ f = face_score_from_value fo /\
  t = total_score k f g /\ d = decision_of_total t.
Proof.
  unfold score_attempt. intros H. bind_inv. injection H as <- <- <- <- <- <-.
  repeat split; assumption || reflexivity.
Qed.

(** A scored response comes from a user the store holds, scored by
    [score_attempt] on some request fields. *)
Lemma verify_scored_inv (st : S) (body : option jval) (u : jval) (k f t : pyfloat) (g : Z) (d : decision) :
  verify st body = VScored u k f g t d ->
  truthy u = true /\ exists row ks geo fo, store_select st u = Ok (Some row) /\
    score_attempt u row ks geo fo = Ok (VScored u k f g t d).
Proof.
  unfold verify, try_except. destruct (verify_body st body) as [r|e] eqn:E; [| discriminate].
  intros ->. unfold verify_body in E. bind_inv.
  apply verify_user_Ok_scored in E as [Hu (row & Hs & Hsc)].
  pose proof Hsc as Hsc'. apply score_attempt_Ok in Hsc' as [-> _]. eauto 10.
Qed.

(** the keystroke score of a response is a number in [[0, 100]] *)
Lemma score_attempt_keystroke (u : jval) (row : user_row) (ks geo fo u' : jval)
    (k f t : pyfloat) (g : Z) (d : decision) :
  score_attempt u row ks geo fo = Ok (VScored u' k f g t d) -> exists q, k = Fin q /\ (0 <= q <= 100)%Q.
Proof.
  intros H. apply score_attempt_Ok in H as (_ & -> & _). apply keystroke_similarity_fin.
Qed.

(** ** Properties *)

(** C19: a request without a truthy [username] gets the 400 response,
    before the store is consulted. *)
Theorem verify_missing_username (st : S) (kvs : list (string * jval)) :
  truthy (dict_get kvs "username" JNone) = false ->
  verify st (Some (JDict kvs)) = VMissingUsername.
Proof. intros H. rewrite verify_dict. unfold verify_user. now rewrite H. Qed.

(** C17: an unknown username gets the 404 [block] response, never a
    score. *)
Theorem verify_user_not_found (st : S) (kvs : list (string * jval)) :
  truthy (dict_get kvs "username" JNone) = true ->
  store_select st (dict_get kvs "username" JNone) = Ok None ->
  verify st (Some (JDict kvs)) = VUserNotFound /\ verify_status VUserNotFound = 404%Z.
Proof. intros Hu Hs. rewrite verify_dict. unfold verify_user. now rewrite Hu, Hs. Qed.

(** C18: a supplied password that the hasher rejects gets the 403
    [password incorrect] response, distinct from a scored [block] (200). *)
Theorem verify_password_incorrect (st : S) (kvs : list (string * jval)) (row : user_row) (p : string) :
  truthy (dict_get kvs "username" JNone) = true ->
  store_select st (dict_get kvs "username" JNone) = Ok (Some row) ->
  dict_get kvs "password" JNone = JStr p -> p <> ""%string ->
  checkpw p (password_hash row) = Ok false ->
  verify st (Some (JDict kvs)) = VPasswordIncorrect /\
  (forall u k f g t, verify_status (VScored u k f g t Block) <> verify_status VPasswordIncorrect).
Proof.
  intros Hu Hs Hp Hne Hc. split; [| discriminate].
  rewrite verify_dict, (verify_user_found _ _ _ _ _ _ row Hu Hs), Hp.
  unfold check_password. simpl. apply String.eqb_neq in Hne. rewrite Hne. simpl. now rewrite Hc.
Qed.

(** C2: the face-score override is trusted as it is.  For any user in
    the store, a request with only the username, [face_score: 300] and a
    NaN latitude is allowed: no password, and no keystroke or location
    evidence, is needed. *)
Theorem verify_face_override_allows (st : S) (u : string) (row : user_row) :
  u <> ""%string -> store_select st (JStr u) = Ok (Some row) ->
  exists k t,
    verify st (Some (JDict [("username", JStr u); ("face_score", JInt 300);
                            ("geo", JDict [("lat", JFloat NaN)])])) =
    VScored (JStr u) k (Fin 300) 0 t Allow.
Proof.
  intros Hne Hs. rewrite (verify_known_user _ _ u row) by (reflexivity || assumption).
  cbn [dict_get dict_lookup String.eqb Ascii.eqb Bool.eqb andb].
  rewrite check_password_falsy by reflexivity. simpl. unfold score_attempt.
  rewrite geo_score_nan_lat. simpl.
  destruct (keystroke_similarity_fin (stored_profile (avgDwell row) (avgFlight row)) (JDict []))
    as (q & -> & Hk1 & Hk2).
  eexists _, _. f_equal. rewrite total_score_Fin. apply decision_of_round_allow. qconst. lra.
Qed.

(** C15: a legitimate user who types the right password but logs in from
    a point whose [lat + lon] is larger than the enrolled one, however
    close, gets the 500 error instead of a score. *)
Theorem verify_nearby_point_fails (st : S) (u p : string) (row : user_row) (a b c d : Q) :
  u <> ""%string -> store_select st (JStr u) = Ok (Some row) ->
  checkpw p (password_hash row) = Ok true -> p <> ""%string ->
  latitude row = Fin a -> longitude row = Fin b -> (a + b < c + d)%Q ->
  verify st (Some (JDict [("username", JStr u); ("password", JStr p); ("geo", geo_point c d)])) =
  VFailed ValueError.
Proof.
  intros Hne Hs Hc Hp Ha Hb Hlt. rewrite (verify_known_user _ _ u row) by (reflexivity || assumption).
  cbn [dict_get dict_lookup String.eqb Ascii.eqb Bool.eqb andb].
  apply String.eqb_neq in Hp. unfold check_password. simpl. rewrite Hp. simpl. rewrite Hc. simpl.
  unfold score_attempt. rewrite Ha, Hb, geo_score_point_negative by lra. reflexivity.
Qed.

(** C31: an [int] coordinate beyond the double range makes the
    subtraction of line 162 raise [OverflowError], and [verify] answers
    with the 500 error, for any user and whatever the stored location. *)
Theorem verify_int_coordinate_overflows (st : S) (u : string) (row : user_row) (z : Z) :
  u <> ""%string -> store_select st (JStr u) = Ok (Some row) ->
  (float_overflow_bound <= Z.abs z)%Z ->
  verify st (Some (JDict [("username", JStr u); ("geo", JDict [("lat", JInt z)])])) =
  VFailed OverflowError.
Proof.
  intros Hne Hs Hz. rewrite (verify_known_user _ _ u row) by (reflexivity || assumption).
  rewrite check_password_falsy by reflexivity. simpl. unfold score_attempt, geo_score. simpl.
  now rewrite float_of_int_overflow.
Qed.

(** C6: every scored response is consistent: the decision is the one of
    the total, the total is the weighted blend of the three scores, the
    keystroke score lies in [[0, 100]], the geo score is 0, 60 or 100, and
    the username is truthy. *)
Theorem verify_scored_consistent (st : S) (body : option jval) (u : jval)
    (k f t : pyfloat) (g : Z) (d : decision) :
  verify st body = VScored u k f g t d ->
  d = decision_of_total t /\ t = total_score k f g /\ fin_between 0 100 k /\
  (g = 0 \/ g = 60 \/ g = 100)%Z /\ truthy u = true.
Proof.
  intros E. apply verify_scored_inv in E as [Hu (row & ks & geo & fo & _ & Hsc)].
  pose proof (score_attempt_keystroke _ _ _ _ _ _ _ _ _ _ _ Hsc) as (q & -> & Hq).
  apply score_attempt_Ok in Hsc as (_ & _ & Hg & _ & -> & ->).
  repeat split; try reflexivity; try apply Hq; try exact Hu.
  exact (geo_score_values _ _ _ _ Hg).
Qed.

End Handler.

(** C8: the password is optional.  When the request carries no truthy
    password the response is the same whatever the password verifier
    says: the stored credential is never consulted. *)
Theorem verify_password_optional {S : Type} {store : UserStore S} (h1 h2 : PasswordHasher)
    (st : S) (kvs : list (string * jval)) :
  truthy (dict_get kvs "password" JNone) = false ->
  @verify S store h1 st (Some (JDict kvs)) = @verify S store h2 st (Some (JDict kvs)).
Proof.
  intros Hp. rewrite !verify_dict. unfold verify_user.
  destruct (truthy (dict_get kvs "username" JNone)); simpl; [| reflexivity].
  destruct (store_select st _) as [[row|]|e]; simpl; try reflexivity.
  rewrite !check_password_falsy by exact Hp. reflexivity.
Qed.

(** ** Witnesses *)

Lemma verify_missing_username_witness :
  @verify _ _ plain_hasher demo_db (Some (JDict [("username", JStr ""); ("password", JStr "pw")]))
  = VMissingUsername.
Proof. apply verify_missing_username. reflexivity. Defined.

Lemma verify_user_not_found_witness :
  @verify _ _ plain_hasher demo_db (Some (JDict [("username", JStr "bob")])) = VUserNotFound /\
  verify_status VUserNotFound = 404%Z.
Proof. apply verify_user_not_found; vm_compute; reflexivity. Defined.

Lemma verify_password_incorrect_witness :
  @verify _ _ plain_hasher demo_db
    (Some (JDict [("username", JStr "alice"); ("password", JStr "wrong")])) = VPasswordIncorrect.
Proof.
  apply (verify_password_incorrect _ _ alice_row "wrong"); try (vm_compute; reflexivity).
  discriminate.
Defined.

Lemma verify_password_optional_witness :
  @verify _ _ plain_hasher demo_db (Some (JDict [("username", JStr "alice")])) =
  @verify _ _ reject_hasher demo_db (Some (JDict [("username", JStr "alice")])).
Proof. apply verify_password_optional. reflexivity. Defined.

Lemma verify_face_override_allows_witness :
  exists k t,
    @verify _ _ plain_hasher demo_db
      (Some (JDict [("username", JStr "alice"); ("face_score", JInt 300);
                    ("geo", JDict [("lat", JFloat NaN)])])) =
    VScored (JStr "alice") k (Fin 300) 0 t Allow.
Proof. apply (verify_face_override_allows _ _ alice_row); [discriminate | vm_compute; reflexivity]. Defined.

Lemma verify_nearby_point_fails_witness :
  @verify _ _ plain_hasher demo_db
    (Some (JDict [("username", JStr "alice"); ("password", JStr "pw");
                  ("geo", geo_point 10 (20 + (1 # 1000)))])) = VFailed ValueError.
Proof.
  apply (verify_nearby_point_fails _ _ _ alice_row 10 20);
    try discriminate; try reflexivity; vm_compute; reflexivity.
Defined.

Lemma verify_int_coordinate_overflows_witness :
  @verify _ _ plain_hasher demo_db
    (Some (JDict [("username", JStr "alice"); ("geo", JDict [("lat", JInt (2 ^ 1024))])])) =
  VFailed OverflowError.
Proof.
  apply (verify_int_coordinate_overflows _ _ alice_row); [discriminate | reflexivity |].
  vm_compute. discriminate.
Defined.

(** The example of the specification: identical timings and location and
    no face score give 100, 40 and 100, a total of 85 and [allow]. *)
Lemma verify_scored_consistent_witness :
  Allow = decision_of_total (Fin (8500 # 100)) /\
  Fin (8500 # 100) = total_score (Fin (10000 # 100)) (Fin 40) 100 /\
  fin_between 0 100 (Fin (10000 # 100)) /\ (100 = 0 \/ 100 = 60 \/ 100 = 100)%Z /\
  truthy (JStr "alice") = true.
Proof.
  apply (verify_scored_consistent (hasher := plain_hasher) demo_db
    (Some (JDict [("username", JStr "alice"); ("password", JStr "pw");
                  ("keystroke", JDict [("avgDwell", JInt 100); ("avgFlight", JInt 50)]);
                  ("geo", JDict [("lat", JInt 10); ("lon", JInt 20)])]))).
  vm_compute. reflexivity.
Defined.

End Verify.
