(* ===== verification/Enroll.v ===== *)
(** * The enrollment handler ([enroll], src/acc.py 58-112)

    [enroll] requires a truthy username and password (400 otherwise),
    hashes the password with a fresh salt, converts the four timing and
    location fields with [float()], and writes the whole row with one
    [INSERT ... ON DUPLICATE KEY UPDATE] of every column.  Any exception
    ends in the 500 response, and nothing is written then.  The salt that
    [bcrypt.gensalt()] draws is an argument of the model. *)

From S2P Require Import Prelude PyFloat PyParse PyJson Keystroke Face Geo Decision Store Verify.
From stdpp Require Import gmap strings.
From Stdlib Require Import String.

Module Enroll.
Import Keystroke.Keystroke Face.Face Geo.Geo Decision.Decision Store.Store Verify.Verify.

Inductive enroll_response :=
| EMissingFields            (** 400, [username and password required] *)
| EEnrolled (username : jval)  (** 200, [User ... enrolled successfully!] *)
| EFailed (e : pyexc).      (** 500, [Enrollment failed] *)

Definition enroll_status (r : enroll_response) : Z :=
  match r with EMissingFields => 400 | EEnrolled _ => 200 | EFailed _ => 500 end.

(** a request as the login page sends it *)
Definition login_request (u p : string) (ks geo : jval) : jval :=
  JDict [("username", JStr u); ("password", JStr p); ("keystroke", ks); ("geo", geo)].

(** The abstract store of the specification: one profile per username,
    and enrollment replaces it whole. *)
Definition profiles := gmap string user_row.

Definition enroll_spec (m : profiles) (u : string) (row : user_row) : profiles := <[u := row]> m.

Definition absr (db : mysql_db) : profiles := db_users db.

(** fixtures for the witnesses *)
Definition empty_db : mysql_db := {| db_up := true; db_users := ∅ |}.

Definition alice_kvs : list (string * jval) :=
  [("username", JStr "alice"); ("password", JStr "pw");
   ("keystroke", stored_profile (Fin 100) (Fin 50)); ("geo", geo_point 10 20)].

Definition bob_kvs : list (string * jval) :=
  [("username", JStr "bob"); ("password", JStr "secret");
   ("keystroke", stored_profile (Fin 90) (Fin 40)); ("geo", geo_point 48 2)].

Section Handler.
Context {S : Type} {store : UserStore S} {hasher : PasswordHasher}.

(** lines 85-88: the row written for a request *)
Definition enroll_row (hash : string) (ks geo face : jval) : result user_row :=
  dwell ← py_get ks "avgDwell" (JInt 0) ≫= py_float;
  flight ← py_get ks "avgFlight" (JInt 0) ≫= py_float;
  lat ← py_get geo "lat" (JInt 0) ≫= py_float;
  lon ← py_get geo "lon" (JInt 0) ≫= py_float;
  Ok {| password_hash := hash; avgDwell := dwell; avgFlight := flight; face := face;
        latitude := lat; longitude := lon |}.

(** lines 78-108, once the fields are read *)
Definition enroll_user (st : S) (s : salt) (username password ks geo face : jval)
    : result (S * enroll_response) :=
  if negb (truthy username) || negb (truthy password) then Ok (st, EMissingFields) else
  pw ← py_encode password;
  row ← enroll_row (hashpw pw s) ks geo face;
  st' ← store_upsert st username row;
  Ok (st', EEnrolled username).

(** lines 71-108 *)
Definition enroll_body (st : S) (s : salt) (body : option jval) : result (S * enroll_response) :=
  data ← get_json body;
  username ← py_get data "username" JNone;
  password ← py_get data "password" JNone;
  ks ← py_get data "keystroke" (JDict []);
  geo ← py_get data "geo" (JDict []);
  face ← py_get data "face" JNone;
  enroll_user st s username password ks geo face.

(** lines 70-112: on an exception the store is as before *)
Definition enroll (st : S) (s : salt) (body : option jval) : S * enroll_response :=
  match enroll_body st s body with Ok r => r | Raise e => (st, EFailed e) end.

End Handler.

Section MySQLDefs.
Context {hasher : PasswordHasher}.

(** A stored row is storable and its hash is the hash of some password. *)
Definition row_wf (r : user_row) : Prop :=
  row_storable r = true /\ exists p s, password_hash r = hashpw p s.

Definition db_wf (db : mysql_db) : Prop := map_Forall (fun _ r => row_wf r) (db_users db).

(** The tables reachable from [init] by enrollments, with the server
    going down or coming back between requests ([verify] only reads). *)
Inductive reachable (init : mysql_db) : mysql_db -> Prop :=
| reach_init : reachable init init
| reach_enroll db s body : reachable init db -> reachable init (fst (enroll db s body))
| reach_connection db up : reachable init db -> reachable init {| db_up := up; db_users := db_users db |}.

End MySQLDefs.

Section HandlerFacts.
Context {S : Type} {store : UserStore S} {hasher : PasswordHasher}.

(** ** Lemmas *)

Lemma enroll_dict (st : S) (s : salt) (kvs : list (string * jval)) :
  enroll st s (Some (JDict kvs)) =
  match enroll_user st s (dict_get kvs "username" JNone) (dict_get kvs "password" JNone)
          (dict_get kvs "keystroke" (JDict [])) (dict_get kvs "geo" (JDict []))
          (dict_get kvs "face" JNone) with
  | Ok r => r
  | Raise e => (st, EFailed e)
  end.
Proof. reflexivity. Qed.

(** Every outcome other than [EEnrolled] leaves the store as it was. *)
Lemma enroll_user_Ok (st st' : S) (s : salt) (u pw ks geo face : jval) (r : enroll_response) :
  enroll_user st s u pw ks geo face = Ok (st', r) ->
  (r = EMissingFields /\ st' = st) \/
  (r = EEnrolled u /\ truthy u = true /\ truthy pw = true /\
   exists p row, pw = JStr p /\ enroll_row (hashpw p s) ks geo face = Ok row /\
                 store_upsert st u row = Ok st').
Proof.
  unfold enroll_user. destruct (truthy u) eqn:Hu, (truthy pw) eqn:Hpw; simpl;
    try (intros [= <- <-]; now left).
  intros H. bind_inv. injection H as <- <-. right.
  destruct pw; try discriminate Ha. injection Ha as <-. eauto 10.
Qed.

Lemma enroll_cases (st : S) (s : salt) (kvs : list (string * jval)) :
  let '(st', r) := enroll st s (Some (JDict kvs)) in
  (r <> EEnrolled (dict_get kvs "username" JNone) /\ st' = st) \/
  (r = EEnrolled (dict_get kvs "username" JNone) /\ truthy (dict_get kvs "username" JNone) = true /\
   truthy (dict_get kvs "password" JNone) = true /\
   exists p row, dict_get kvs "password" JNone = JStr p /\
     enroll_row (hashpw p s) (dict_get kvs "keystroke" (JDict [])) (dict_get kvs "geo" (JDict []))
       (dict_get kvs "face" JNone) = Ok row /\
     store_upsert st (dict_get kvs "username" JNone) row = Ok st').
Proof.
  rewrite enroll_dict.
  destruct (enroll_user _ _ _ _ _ _ _) as [[st' r]|e] eqn:E; [| left; split; [discriminate | done]].
  apply enroll_user_Ok in E as [[-> ->]|(-> & Hu & rest)]; [left; split; [discriminate | done] |].
  right. auto.
Qed.

Lemma enroll_Enrolled_inv (st st' : S) (s : salt) (kvs : list (string * jval)) (u : jval) :
  enroll st s (Some (JDict kvs)) = (st', EEnrolled u) ->
  u = dict_get kvs "username" JNone /\ truthy u = true /\
  truthy (dict_get kvs "password" JNone) = true /\
  exists p row, dict_get kvs "password" JNone = JStr p /\
    enroll_row (hashpw p s) (dict_get kvs "keystroke" (JDict [])) (dict_get kvs "geo" (JDict []))
      (dict_get kvs "face" JNone) = Ok row /\
    store_upsert st u row = Ok st'.
Proof.
  intros E. pose proof (enroll_cases st s kvs) as C. rewrite E in C.
  destruct C as [[Hne _]|(Hr & Hu & rest)].
  - exfalso. apply Hne. rewrite enroll_dict in E.
    destruct (enroll_user _ _ _ _ _ _ _) as [[st'' r]|e] eqn:E'; [| discriminate].
    injection E as -> ->. apply enroll_user_Ok in E' as [[Hr _]|[Hr _]]; [discriminate Hr | exact Hr].
  - injection Hr as ->. auto.
Qed.

Lemma enroll_row_face (h : string) (ks geo face : jval) (row : user_row) :
  enroll_row h ks geo face = Ok row -> password_hash row = h /\ Store.face row = face.
Proof. unfold enroll_row. intros H. bind_inv. now injection H as <-. Qed.

(** One enrollment either leaves the store as it is or upserts a row built
    from the request. *)
Lemma enroll_step_cases (st : S) (s : salt) (body : option jval) :
  fst (enroll st s body) = st \/
  exists u p ks geo face row, enroll_row (hashpw p s) ks geo face = Ok row /\
    store_upsert st u row = Ok (fst (enroll st s body)).
Proof.
  destruct body as [v|]; [| now left].
  destruct v as [| | | | | |kvs]; try (left; reflexivity).
  pose proof (enroll_cases st s kvs) as C. destruct (enroll st s (Some (JDict kvs))) as [st' r].
  destruct C as [[_ ->]|(_ & _ & _ & p & row & _ & Hrow & Hup)]; [now left |].
  right. simpl. eauto 10.
Qed.

(** ** Properties *)

(** C20: a request whose username or password is missing or falsy gets
    the 400 response and the store is not touched. *)
Theorem enroll_missing_fields (st : S) (s : salt) (kvs : list (string * jval)) :
  truthy (dict_get kvs "username" JNone) = false \/ truthy (dict_get kvs "password" JNone) = false ->
  enroll st s (Some (JDict kvs)) = (st, EMissingFields).
Proof.
  intros H. rewrite enroll_dict. unfold enroll_user.
  destruct H as [H|H]; rewrite H; [reflexivity |]. now rewrite orb_true_r.
Qed.

Section Lawful.
Context `{!UserStoreLaws S}.

(** C11: a successful enrollment stores exactly the row built from the
    request: the new password hash, the four converted numbers and the
    request's [face] ([None] when absent).  Nothing of an earlier row of
    the same user survives. *)
Theorem enroll_full_replace (st st' : S) (s : salt) (kvs : list (string * jval)) (u : jval) :
  enroll st s (Some (JDict kvs)) = (st', EEnrolled u) ->
  exists p row,
    dict_get kvs "password" JNone = JStr p /\
    enroll_row (hashpw p s) (dict_get kvs "keystroke" (JDict [])) (dict_get kvs "geo" (JDict []))
      (dict_get kvs "face" JNone) = Ok row /\
    password_hash row = hashpw p s /\ Store.face row = dict_get kvs "face" JNone /\
    store_select st' u = Ok (Some row).
Proof.
  intros E. apply enroll_Enrolled_inv in E as (-> & _ & _ & p & row & Hp & Hrow & Hup).
  exists p, row. apply enroll_row_face in Hrow as Hf. destruct Hf as [Hh Hf].
  repeat split; auto. eapply upsert_select_eq; eauto.
Qed.

(** C21: enrolling one user never changes what the store holds for
    another, whatever the outcome. *)
Theorem enroll_other_users (st : S) (s : salt) (kvs : list (string * jval)) (k : jval) :
  k <> dict_get kvs "username" JNone ->
  store_select (fst (enroll st s (Some (JDict kvs)))) k = store_select st k.
Proof.
  intros Hk. pose proof (enroll_cases st s kvs) as C.
  destruct (enroll st s (Some (JDict kvs))) as [st' r]. simpl.
  destruct C as [[_ ->]|(_ & _ & _ & p & row & _ & _ & Hup)]; [reflexivity |].
  eapply upsert_select_ne; eauto.
Qed.

Context `{!PasswordHasherLaws}.

(** A user whose row is the one built from a login request is allowed
    when the same request is verified. *)
Lemma verify_enrolled_allows (st : S) (s : salt) (u p : string) (d f a b : Q) (row : user_row) :
  u <> ""%string -> p <> ""%string ->
  enroll_row (hashpw p s) (stored_profile (Fin d) (Fin f)) (geo_point a b) JNone = Ok row ->
  store_select st (JStr u) = Ok (Some row) ->
  exists k t,
    verify st (Some (login_request u p (stored_profile (Fin d) (Fin f)) (geo_point a b))) =
      VScored (JStr u) k (Fin 40) 100 t Allow /\
    k ≡ Fin 100 /\ t ≡ Fin 85.
Proof.
  intros Hu Hp Hrow Hs. cbn in Hrow. injection Hrow as <-.
  unfold login_request. erewrite (verify_known_user _ _ u _); [| reflexivity | exact Hu | exact Hs].
  cbn [dict_get dict_lookup login_request String.eqb Ascii.eqb Bool.eqb andb].
  unfold check_password. cbn [truthy]. apply String.eqb_neq in Hp. rewrite Hp.
  simpl. rewrite checkpw_hashpw. simpl. unfold score_attempt.
  cbn [latitude longitude avgDwell avgFlight]. rewrite geo_score_zero_radicand by lra. simpl.
  assert (Hk : keystroke_similarity (stored_profile (Fin d) (Fin f)) (stored_profile (Fin d) (Fin f))
                ≡ Fin 100)
    by (rewrite (keystroke_similarity_Ok _ _ (Fin d) (Fin f) (Fin d) (Fin f)) by apply keystroke_fields_stored;
        apply keystroke_score_same).
  eexists _, _. split; [f_equal | split; [exact Hk |]].
  - rewrite Hk. vm_compute. reflexivity.
  - rewrite Hk. vm_compute. reflexivity.
Qed.

(** C3: round trip.  After a successful enrollment, verifying with the
    same request (password, timings and location, no face score) scores
    100 for the keystrokes, 40 for the face and 100 for the location, a
    total of 85: [allow]. *)
Theorem enroll_then_verify_allows (st st' : S) (s : salt) (u p : string) (d f a b : Q) (r : jval) :
  enroll st s (Some (login_request u p (stored_profile (Fin d) (Fin f)) (geo_point a b))) =
    (st', EEnrolled r) ->
  exists k t,
    verify st' (Some (login_request u p (stored_profile (Fin d) (Fin f)) (geo_point a b))) =
      VScored (JStr u) k (Fin 40) 100 t Allow /\
    k ≡ Fin 100 /\ t ≡ Fin 85.
Proof.
  intros E. apply enroll_Enrolled_inv in E as (Hr & Hu & Hpw & p' & row & Hp & Hrow & Hup).
  cbn in Hr, Hu, Hpw, Hp. subst r. injection Hp as <-. apply upsert_select_eq in Hup.
  apply (verify_enrolled_allows _ s _ _ _ _ _ _ row); [| | exact Hrow | exact Hup];
    intros ->; vm_compute in *; discriminate.
Qed.

(** C16: [enroll] converts the coordinates with [float()], so it accepts
    strings such as ["48.85"], but [verify] subtracts the raw values: once
    a user is enrolled with string coordinates, verifying with the same
    request always fails with [TypeError] (500). *)
Theorem enroll_string_coords_break_verify (st st' : S) (s : salt) (u p sl so : string) (ks r : jval) :
  enroll st s (Some (login_request u p ks (JDict [("lat", JStr sl); ("lon", JStr so)]))) =
    (st', EEnrolled r) ->
  verify st' (Some (login_request u p ks (JDict [("lat", JStr sl); ("lon", JStr so)]))) =
    VFailed TypeError.
Proof.
  intros E. apply enroll_Enrolled_inv in E as (Hr & Hu & Hpw & p' & row & Hp & Hrow & Hup).
  cbn in Hr, Hu, Hpw, Hp. subst r. injection Hp as <-.
  apply upsert_select_eq in Hup.
  unfold login_request. rewrite verify_dict. cbn [dict_get dict_lookup String.eqb Ascii.eqb Bool.eqb andb].
  rewrite (verify_user_found _ _ _ _ _ _ _ Hu Hup). unfold check_password. cbn [truthy]. rewrite Hpw.
  apply enroll_row_face in Hrow as [-> _].
  simpl. rewrite checkpw_hashpw. reflexivity.
Qed.

End Lawful.
End HandlerFacts.

(** ** The enrollments on the MySQL table *)

Section MySQLModel.
Context {hasher : PasswordHasher}.

(** One enrollment keeps the table well formed. *)
Lemma enroll_db_wf (db : mysql_db) (s : salt) (body : option jval) :
  db_wf db -> db_wf (fst (enroll db s body)).
Proof.
  intros Hwf.
  destruct (enroll_step_cases db s body) as [-> | (u & p & ks & geo & face & row & Hrow & Hup)];
    [exact Hwf |].
  apply mysql_upsert_Ok in Hup as (k & -> & _ & Hst & Hdb). unfold db_wf. rewrite Hdb. simpl.
  apply map_Forall_insert_2; [| exact Hwf].
  split; [exact Hst |]. apply enroll_row_face in Hrow as [-> _]. eauto.
Qed.

(** The effect of an enrollment on the table does not depend on the rows
    already there: it is nothing, or the insertion of one row under the
    request's [str] username, on a server that is up.  The response does
    not depend on the rows either. *)
Lemma enroll_mysql_effect (up : bool) (s : salt) (kvs : list (string * jval)) :
  exists (eff : option (string * user_row)) (r : enroll_response),
    (forall users, enroll {| db_up := up; db_users := users |} s (Some (JDict kvs)) =
       (match eff with
        | Some (u, row) => {| db_up := true; db_users := <[u := row]> users |}
        | None => {| db_up := up; db_users := users |}
        end, r)) /\
    (forall u row, eff = Some (u, row) -> up = true /\ dict_get kvs "username" JNone = JStr u) /\
    (forall v, r = EEnrolled v -> exists u row, eff = Some (u, row) /\ v = JStr u).
Proof.
  setoid_rewrite enroll_dict. unfold enroll_user.
  destruct (negb (truthy (dict_get kvs "username" JNone)) || _);
    [exists None, EMissingFields; split; [reflexivity | split; discriminate] |].
  destruct (py_encode _) as [pw|e]; [| exists None, (EFailed e); split; [reflexivity | split; discriminate]].
  simpl. destruct (enroll_row _ _ _ _) as [row|e];
    [| exists None, (EFailed e); split; [reflexivity | split; discriminate]].
  simpl. unfold mysql_upsert. simpl.
  destruct up; [| exists None, (EFailed DatabaseError); split; [reflexivity | split; discriminate]].
  destruct (dict_get kvs "username" JNone) as [| | | |u| |] eqn:Hu;
    try (exists None, (EFailed DatabaseError); split; [reflexivity | split; discriminate]).
  simpl. destruct (row_storable row);
    [| exists None, (EFailed DatabaseError); split; [reflexivity | split; discriminate]].
  exists (Some (u, row)), (EEnrolled (JStr u)). split; [reflexivity |].
  split; [now intros ? ? [= <- <-] | intros v [= <-]; eauto].
Qed.

(** C30: enrollment never stores an out-of-range timing: an [int] beyond
    the double range makes [float()] raise [OverflowError], and a string
    that [float()] turns into an infinity (such as ["1e400"]) is refused by
    MySQL.  Both end in the 500 response with the table unchanged. *)
Theorem enroll_overflow_rejected (db : mysql_db) (s : salt) (u p str : string) (z : Z) :
  u <> ""%string -> p <> ""%string ->
  (float_overflow_bound <= Z.abs z)%Z -> parse_float str = Some PInf ->
  enroll db s (Some (login_request u p (JDict [("avgDwell", JInt z)]) (JDict []))) =
    (db, EFailed OverflowError) /\
  enroll db s (Some (login_request u p (JDict [("avgDwell", JStr str)]) (JDict []))) =
    (db, EFailed DatabaseError).
Proof.
  intros Hu Hp Hz Hs. apply String.eqb_neq in Hu, Hp.
  unfold login_request. rewrite !enroll_dict. cbn [dict_get dict_lookup String.eqb Ascii.eqb Bool.eqb andb].
  unfold enroll_user. cbn [truthy]. rewrite Hu, Hp. simpl.
  unfold enroll_row. simpl. rewrite float_of_int_overflow, Hs by exact Hz. split; [reflexivity |].
  simpl. unfold mysql_upsert. now destruct (db_up db).
Qed.

(** C34: while the database is down, every request that names a user
    fails: [verify] answers the 500 error of the failed [SELECT], and
    [enroll] never succeeds and leaves the table as it was. *)
Theorem database_down_fails (db : mysql_db) (s : salt) (kvs : list (string * jval)) :
  db_up db = false -> truthy (dict_get kvs "username" JNone) = true ->
  verify db (Some (JDict kvs)) = VFailed DatabaseError /\
  fst (enroll db s (Some (JDict kvs))) = db /\
  (forall u, snd (enroll db s (Some (JDict kvs))) <> EEnrolled u).
Proof.
  intros Hdown Hu. split.
  { rewrite verify_dict. unfold verify_user. rewrite Hu. simpl. unfold mysql_select. now rewrite Hdown. }
  destruct (enroll db s (Some (JDict kvs))) as [db' r] eqn:E. simpl.
  assert (NE : forall u, r <> EEnrolled u).
  { intros u ->. apply enroll_Enrolled_inv in E as (_ & _ & _ & p & row & _ & _ & Hup).
    simpl in Hup. unfold mysql_upsert in Hup. now rewrite Hdown in Hup. }
  split; [| exact NE].
  pose proof (enroll_cases db s kvs) as C. rewrite E in C.
  destruct C as [[_ ->]|[-> _]]; [reflexivity | now destruct (NE _ eq_refl)].
Qed.

(** C10: invariant.  In every table reachable from a well-formed one,
    every row holds finite numbers, a storable face and the hash of some
    password. *)
Theorem reachable_db_wf (init db : mysql_db) : db_wf init -> reachable init db -> db_wf db.
Proof.
  intros Hinit R. induction R as [|db s body R IH|db up R IH]; [exact Hinit | | exact IH].
  now apply enroll_db_wf.
Qed.

(** C9: refinement.  Seen through [absr], an enrollment on the MySQL
    table is the specification's [enroll_spec] of the profile built from
    the request when it answers [EEnrolled], and changes nothing
    otherwise. *)
Theorem enroll_mysql_refines (db : mysql_db) (s : salt) (kvs : list (string * jval)) :
  let '(db', r) := enroll db s (Some (JDict kvs)) in
  match r with
  | EEnrolled _ =>
      exists u p row,
        dict_get kvs "username" JNone = JStr u /\ dict_get kvs "password" JNone = JStr p /\
        enroll_row (hashpw p s) (dict_get kvs "keystroke" (JDict [])) (dict_get kvs "geo" (JDict []))
          (dict_get kvs "face" JNone) = Ok row /\
        absr db' = enroll_spec (absr db) u row
  | _ => db' = db
  end.
Proof.
  pose proof (enroll_cases db s kvs) as C.
  destruct (enroll db s (Some (JDict kvs))) as [db' r] eqn:E.
  destruct r as [|u'|e].
  - destruct C as [[_ ->]|[Hr _]]; [reflexivity | discriminate].
  - apply enroll_Enrolled_inv in E as (-> & _ & _ & p & row & Hp & Hrow & Hup).
    apply mysql_upsert_Ok in Hup as (u & Hu & _ & _ & ->). exists u, p, row. auto.
  - destruct C as [[_ ->]|[Hr _]]; [reflexivity | discriminate].
Qed.

End MySQLModel.

(** ** Witnesses *)

Lemma enroll_missing_fields_witness :
  @enroll _ _ plain_hasher empty_db tt (Some (JDict [("username", JStr "alice")])) =
  (empty_db, EMissingFields).
Proof. apply enroll_missing_fields. right. reflexivity. Defined.

Lemma enroll_full_replace_witness :
  exists p row,
    dict_get alice_kvs "password" JNone = JStr p /\
    enroll_row (hashpw p tt) (dict_get alice_kvs "keystroke" (JDict []))
      (dict_get alice_kvs "geo" (JDict [])) (dict_get alice_kvs "face" JNone) = Ok row /\
    password_hash row = hashpw p tt /\ Store.face row = dict_get alice_kvs "face" JNone /\
    store_select (fst (@enroll _ _ plain_hasher demo_db tt (Some (JDict alice_kvs)))) (JStr "alice") =
      Ok (Some row).
Proof. apply (enroll_full_replace demo_db). vm_compute. reflexivity. Defined.

Lemma enroll_other_users_witness :
  store_select (fst (@enroll _ _ plain_hasher demo_db tt (Some (JDict bob_kvs)))) (JStr "alice") =
  store_select demo_db (JStr "alice").
Proof. apply enroll_other_users. intros H. vm_compute in H. discriminate H. Defined.

Lemma enroll_then_verify_allows_witness :
  exists k t,
    @verify _ _ plain_hasher
      (fst (@enroll _ _ plain_hasher empty_db tt
              (Some (login_request "alice" "pw" (stored_profile (Fin 100) (Fin 50)) (geo_point 10 20)))))
      (Some (login_request "alice" "pw" (stored_profile (Fin 100) (Fin 50)) (geo_point 10 20))) =
      VScored (JStr "alice") k (Fin 40) 100 t Allow /\
    k ≡ Fin 100 /\ t ≡ Fin 85.
Proof.
  apply (enroll_then_verify_allows (hasher := plain_hasher) empty_db _ tt "alice" "pw" 100 50 10 20 (JStr "alice")).
  vm_compute. reflexivity.
Defined.

Lemma enroll_string_coords_break_verify_witness :
  let req := login_request "alice" "pw" (JDict []) (JDict [("lat", JStr "48.85"); ("lon", JStr "2.35")]) in
  @verify _ _ plain_hasher (fst (@enroll _ _ plain_hasher empty_db tt (Some req))) (Some req) =
    VFailed TypeError.
Proof.
  intros req. apply (enroll_string_coords_break_verify (hasher := plain_hasher) empty_db _ tt "alice" "pw" "48.85" "2.35"
                       (JDict []) (JStr "alice")).
  vm_compute. reflexivity.
Defined.

Lemma enroll_overflow_rejected_witness :
  @enroll _ _ plain_hasher demo_db tt
    (Some (login_request "alice" "pw" (JDict [("avgDwell", JInt (2 ^ 1024))]) (JDict []))) =
    (demo_db, EFailed OverflowError) /\
  @enroll _ _ plain_hasher demo_db tt
    (Some (login_request "alice" "pw" (JDict [("avgDwell", JStr "1e400")]) (JDict []))) =
    (demo_db, EFailed DatabaseError).
Proof.
  apply (enroll_overflow_rejected (hasher := plain_hasher)); try discriminate; vm_compute; reflexivity.
Defined.

Lemma database_down_fails_witness :
  let down := {| db_up := false; db_users := db_users demo_db |} in
  @verify _ _ plain_hasher down (Some (JDict alice_kvs)) = VFailed DatabaseError /\
  fst (@enroll _ _ plain_hasher down tt (Some (JDict alice_kvs))) = down /\
  (forall u, snd (@enroll _ _ plain_hasher down tt (Some (JDict alice_kvs))) <> EEnrolled u).
Proof. intros down. apply (database_down_fails (hasher := plain_hasher)); reflexivity. Defined.

Lemma reachable_db_wf_witness :
  @db_wf plain_hasher (fst (@enroll _ _ plain_hasher empty_db tt (Some (JDict alice_kvs)))).
Proof.
  apply (reachable_db_wf empty_db).
  - apply map_Forall_empty.
  - apply reach_enroll, reach_init.
Defined.

End Enroll.
