(* ===== verification/Response.v ===== *)
(** * Response bodies ([jsonify(...)] in [enroll] and [verify])

    Each handler answers with a status and a dict that [jsonify] turns into
    JSON text: the bodies of lines 79, 108 and 112 for [enroll], and of
    lines 136, 147, 154, 190-197 and 201 for [verify], with the decision
    written as the strings of lines 179-183.  Python's [str()] of the
    username (line 108) and of the exception (lines 112, 201) are
    parameters of the rendering.

    [json.dumps], under [jsonify], writes a non-finite float as [NaN],
    [Infinity] or [-Infinity]; these tokens are not JSON (RFC 8259) and
    [JSON.parse] in the browser rejects them.  [strict_json] says that a
    body has none of them. *)

From S2P Require Import Prelude PyFloat PyParse PyJson Keystroke Face Geo Decision Store Verify Enroll.
From stdpp Require Import strings.
From Stdlib Require Import String.

Module Response.
Import Keystroke.Keystroke Face.Face Geo.Geo Decision.Decision Store.Store Verify.Verify Enroll.Enroll.

(** lines 178-183: the [result] strings *)
Definition decision_str (d : decision) : string :=
  match d with Allow => "allow" | Mfa => "mfa" | Block => "block" end.

Section Render.
Context (py_str : jval -> string) (exc_str : pyexc -> string).

(** the status and body of each [return] of [verify] *)
Definition verify_json (r : verify_response) : Z * jval :=
  (verify_status r,
   match r with
   | VMissingUsername => JDict [("error", JStr "username required")]
   | VUserNotFound => JDict [("result", JStr "block"); ("reason", JStr "user not found")]
   | VPasswordIncorrect => JDict [("result", JStr "block"); ("reason", JStr "password incorrect")]
   | VScored u k f g t d =>
       JDict [("username", u); ("keystroke_score", JFloat k); ("face_score", JFloat f);
              ("geo_score", JInt g); ("total_score", JFloat t); ("result", JStr (decision_str d))]
   | VFailed e => JDict [("error", JStr "Verification failed"); ("details", JStr (exc_str e))]
   end).

(** the status and body of each [return] of [enroll] *)
Definition enroll_json (r : enroll_response) : Z * jval :=
  (enroll_status r,
   match r with
   | EMissingFields => JDict [("error", JStr "username and password required")]
   | EEnrolled u => JDict [("message", JStr ("User " ++ py_str u ++ " enrolled successfully!"))]
   | EFailed e => JDict [("error", JStr "Enrollment failed"); ("details", JStr (exc_str e))]
   end).

End Render.

(** a value [json.dumps] writes as RFC 8259 JSON: no NaN and no infinity *)
Fixpoint strict_json (v : jval) : bool :=
  match v with
  | JFloat x => is_finite x
  | JList l =>
      (fix go (l : list jval) : bool :=
         match l with [] => true | x :: l' => strict_json x && go l' end) l
  | JDict kvs =>
      (fix go (kvs : list (string * jval)) : bool :=
         match kvs with [] => true | (_, x) :: r => strict_json x && go r end) kvs
  | _ => true
  end.

(** the request of the witnesses: a known user with an infinite face score *)
Definition infinite_face_request : option jval :=
  Some (JDict [("username", JStr "alice"); ("face_score", JStr "Infinity")]).

(** ** Properties *)

Section Strict.
Context {hasher : PasswordHasher} (py_str : jval -> string) (exc_str : pyexc -> string).

(** C32: on the MySQL store, the body of a [verify] response is valid JSON
    exactly unless it is a scored (200) response whose face score is not
    finite: the keystroke score is always finite, the geo score is an
    [int], the username is a [str], and the total is finite exactly when
    the face score is.  A client-sent [face_score] of ["Infinity"] or
    ["nan"] therefore gets a body the browser cannot parse.  Every body of
    [enroll] is valid JSON. *)
Theorem verify_json_strict (db : mysql_db) (s : salt) (body : option jval) :
  (strict_json (verify_json exc_str (verify db body)).2 = false <->
   exists u k f g t d, verify db body = VScored u k f g t d /\ is_finite f = false) /\
  strict_json (enroll_json py_str exc_str (enroll db s body).2).2 = true.
Proof.
  split; [| destruct (enroll db s body) as [? []]; reflexivity].
  destruct (verify db body) as [| | |u k f g t d|e] eqn:E;
    try (split; [discriminate | intros (? & ? & ? & ? & ? & ? & [=] & _)]).
  apply verify_scored_inv in E as [_ (row & ks & geo & fo & Hs & Hsc)].
  apply mysql_select_key in Hs as [su ->].
  pose proof (score_attempt_keystroke _ _ _ _ _ _ _ _ _ _ _ Hsc) as (q & -> & _).
  apply score_attempt_Ok in Hsc as (_ & _ & _ & _ & -> & _).
  cbn [verify_json snd strict_json is_finite andb]. rewrite total_score_finite.
  destruct (is_finite f) eqn:Hf; simpl.
  - split; [discriminate |]. intros (? & ? & ? & ? & ? & ? & [= _ _ <- _ _ _] & H). congruence.
  - split; [intros _; eauto 10 | reflexivity].
Qed.

End Strict.

(** ** Witnesses *)

Lemma verify_json_strict_witness :
  exists u k f g t d,
    @verify _ _ plain_hasher demo_db infinite_face_request = VScored u k f g t d /\
    is_finite f = false.
Proof.
  apply (proj1 (verify_json_strict (hasher := plain_hasher) (fun _ => ""%string) (fun _ => ""%string)
                  demo_db tt infinite_face_request)).
  vm_compute. reflexivity.
Defined.

End Response.
