(* ===== verification/Server.v ===== *)
(** * The application: its routes and runs of requests

    [src/acc.py] declares three routes: [/] for [GET] ([home], lines
    54-56), and [/enroll] and [/verify] for [POST] (lines 58 and 114).
    Flask answers a path without a route with 404, a method the route does
    not list with 405, [OPTIONS] itself, and [HEAD] like [GET].  [serve]
    is one request on the MySQL table; [run] is a sequence of requests,
    with the database server going down or coming back between them.

    Every handler issues at most one statement on the table (a [SELECT] in
    [verify], an [INSERT ... ON DUPLICATE KEY UPDATE] in [enroll]), and
    the rest of its work reads only the request and that statement's
    result.  Requests that the threaded development server runs at the same
    time therefore behave as the sequence of their statements, which is
    what [run] describes.

    As written, [acc.py] raises [NameError] at line 9 before any decorator
    runs (C1), so the program itself registers no route.  [serve] is the
    dispatch Flask performs for the routes the decorators declare, that is
    the application the file defines once its top level gets past line 9;
    it is a model in the same sense as [Verify] and [Enroll], which model
    the bodies of the two handler functions. *)

From S2P Require Import Prelude PyFloat PyParse PyJson Keystroke Face Geo Decision Store Verify Enroll.
From stdpp Require Import gmap strings.
From Stdlib Require Import String.

Module Server.
Import Keystroke.Keystroke Geo.Geo Decision.Decision Store.Store Verify.Verify Enroll.Enroll.

Inductive http_method := GET | HEAD | POST | PUT | PATCH | DELETE | OPTIONS.

#[export] Instance http_method_eq_dec : EqDecision http_method.
Proof. solve_decision. Defined.

Record http_request := {
  method : http_method;
  path : string;
  body : option jval;
}.

Inductive http_response :=
| RPage                           (** 200, [render_template('index.html')] *)
| RNotFound                       (** 404: no route *)
| RMethodNotAllowed               (** 405: the route does not take the method *)
| ROptions                        (** 200: Flask's automatic [OPTIONS] *)
| REnroll (r : enroll_response)
| RVerify (r : verify_response).

(** lines 54, 58 and 114: the methods of each route, with the [HEAD] and
    [OPTIONS] that Flask adds *)
Definition route_methods (p : string) : option (list http_method) :=
  if String.eqb p "/" then Some [GET; HEAD; OPTIONS]
  else if String.eqb p "/enroll" then Some [POST; OPTIONS]
  else if String.eqb p "/verify" then Some [POST; OPTIONS]
  else None.

Definition post (p : string) (b : jval) : http_request :=
  {| method := POST; path := p; body := Some b |}.

Section Serve.
Context {hasher : PasswordHasher}.

(** One request: the route's handler on the table, and the table after it.
    [s] is the salt [bcrypt.gensalt()] draws if the request enrolls. *)
Definition serve (db : mysql_db) (s : salt) (q : http_request) : mysql_db * http_response :=
  match route_methods (path q) with
  | None => (db, RNotFound)
  | Some ms =>
      if bool_decide (method q ∈ ms) then
        if bool_decide (method q = OPTIONS) then (db, ROptions)
        else if String.eqb (path q) "/enroll" then
          let '(db', r) := enroll db s (body q) in (db', REnroll r)
        else if String.eqb (path q) "/verify" then (db, RVerify (verify db (body q)))
        else (db, RPage)
      else (db, RMethodNotAllowed)
  end.

Inductive event :=
| Request (s : salt) (q : http_request)
| Connection (up : bool).

(** the responses of a sequence of requests, and the table after them *)
Fixpoint run (db : mysql_db) (evs : list event) : mysql_db * list http_response :=
  match evs with
  | [] => (db, [])
  | Request s q :: evs' =>
      let '(db1, r) := serve db s q in
      let '(db2, rs) := run db1 evs' in (db2, r :: rs)
  | Connection up :: evs' => run {| db_up := up; db_users := db_users db |} evs'
  end.

End Serve.

(** ** Lemmas *)

Section ServeFacts.
Context {hasher : PasswordHasher}.

Lemma serve_enroll (db : mysql_db) (s : salt) (b : jval) :
  serve db s (post "/enroll" b) = let '(db', r) := enroll db s (Some b) in (db', REnroll r).
Proof. reflexivity. Qed.

End ServeFacts.

(** ** Properties *)

Section Runs.
Context {hasher : PasswordHasher}.

(** C33: ordering of enrollments.  Enrollments of two different usernames
    commute: sent in either order, they leave the same table, and each
    gets the same response.  For any two enrollments, the later writer
    wins: when the second one succeeds, its user's row is exactly the row
    that enrollment alone would have written, whatever the first one did
    (the last-writer-wins the specification accepts for concurrent
    upserts of one username). *)
Theorem enroll_requests_commute (db : mysql_db) (s1 s2 : salt) (kvs1 kvs2 : list (string * jval)) :
  (dict_get kvs1 "username" JNone <> dict_get kvs2 "username" JNone ->
   fst (run db [Request s1 (post "/enroll" (JDict kvs1)); Request s2 (post "/enroll" (JDict kvs2))]) =
   fst (run db [Request s2 (post "/enroll" (JDict kvs2)); Request s1 (post "/enroll" (JDict kvs1))]) /\
   snd (run db [Request s1 (post "/enroll" (JDict kvs1)); Request s2 (post "/enroll" (JDict kvs2))]) =
   rev (snd (run db [Request s2 (post "/enroll" (JDict kvs2)); Request s1 (post "/enroll" (JDict kvs1))]))) /\
  (forall r1 v,
   snd (run db [Request s1 (post "/enroll" (JDict kvs1)); Request s2 (post "/enroll" (JDict kvs2))]) =
     [r1; REnroll (EEnrolled v)] ->
   mysql_select (fst (run db [Request s1 (post "/enroll" (JDict kvs1));
                              Request s2 (post "/enroll" (JDict kvs2))])) v =
   mysql_select (fst (enroll db s2 (Some (JDict kvs2)))) v).
Proof.
  destruct db as [up users]. cbn [run].
  destruct (enroll_mysql_effect up s1 kvs1) as (e1 & r1 & H1 & K1 & _).
  destruct (enroll_mysql_effect up s2 kvs2) as (e2 & r2 & H2 & K2 & R2).
  split.
  - intros Hne.
    destruct e1 as [[u1 row1]|], e2 as [[u2 row2]|];
      [pose proof (K1 _ _ eq_refl) as [-> Hu1]; pose proof (K2 _ _ eq_refl) as [_ Hu2]
      |pose proof (K1 _ _ eq_refl) as [-> _]
      |pose proof (K2 _ _ eq_refl) as [-> _]
      |]; repeat (first [rewrite serve_enroll | rewrite H1 | rewrite H2]; simpl);
      split; try reflexivity.
    f_equal. apply insert_insert_ne. congruence.
  - intros r1' v. rewrite H2.
    destruct e1 as [[u1 row1]|]; [pose proof (K1 _ _ eq_refl) as [-> _] |];
      repeat (first [rewrite serve_enroll | rewrite H1 | rewrite H2]; simpl);
      intros [= _ Hr]; destruct (R2 v Hr) as (u & row & -> & ->);
      destruct (K2 _ _ eq_refl) as [Hup _]; try subst up;
      unfold mysql_select; simpl; now rewrite !lookup_insert_eq.
Qed.

End Runs.

(** ** Witnesses *)

Lemma enroll_requests_commute_witness :
  fst (@run plain_hasher demo_db
         [Request tt (post "/enroll" (JDict alice_kvs)); Request tt (post "/enroll" (JDict bob_kvs))]) =
  fst (@run plain_hasher demo_db
         [Request tt (post "/enroll" (JDict bob_kvs)); Request tt (post "/enroll" (JDict alice_kvs))]) /\
  snd (@run plain_hasher demo_db
         [Request tt (post "/enroll" (JDict alice_kvs)); Request tt (post "/enroll" (JDict bob_kvs))]) =
  rev (snd (@run plain_hasher demo_db
         [Request tt (post "/enroll" (JDict bob_kvs)); Request tt (post "/enroll" (JDict alice_kvs))])).
Proof. apply (proj1 (enroll_requests_commute (hasher := plain_hasher) _ _ _ _ _)). vm_compute. discriminate. Defined.

End Server.
