(* ===== verification/App.v ===== *)
(** * The module's top level (src/acc.py 1-19, 53-58, 114, 204-208)

    Importing or running [acc.py] executes its top-level statements in
    order: the imports (lines 1-7), [app = Flask(_name_, ...)] (9),
    [CORS(app)] (10), the [def]s of the helpers (13, 22, 44), the three
    decorated routes (54, 58, 114) and the [if _name_ == '_main_':] block
    (204-208) that opens a browser and starts the server.  A name is looked
    up among the module's globals and then among the builtins; an unknown
    name raises [NameError].  Function bodies are not run at this point,
    so only the names the top level itself reads are looked up.

    [module_init] threads the module state ([app_state]: globals, the
    registered routes, whether CORS is on, whether a browser was opened
    and whether the server runs) through these statements in the state
    and exception monad of [Prelude]. *)

From S2P Require Import Prelude PyJson Server.
From stdpp Require Import gmap strings.
From Stdlib Require Import String.

Module App.
Import Server.Server.

(** the objects the top level binds and compares *)
Inductive pyobj :=
| PStr (s : string)
| PModule (name : string)
| PFunction (name : string)
| PFlaskApp
| PNone
| PObject (what : string).

#[export] Instance pyobj_eq_dec : EqDecision pyobj.
Proof. solve_decision. Defined.

Record app_state := {
  globals : gmap string pyobj;
  routes : list (string * list http_method);
  cors_enabled : bool;
  browser_opened : bool;
  serving : bool;
}.

(** the names of the [builtins] module (CPython 3.11, [dir(builtins)]) *)
Definition builtins : list string :=
  [
    "ArithmeticError"; "AssertionError"; "AttributeError"; "BaseException";
    "BaseExceptionGroup"; "BlockingIOError"; "BrokenPipeError"; "BufferError"; "BytesWarning";
    "ChildProcessError"; "ConnectionAbortedError"; "ConnectionError"; "ConnectionRefusedError";
    "ConnectionResetError"; "DeprecationWarning"; "EOFError"; "Ellipsis"; "EncodingWarning";
    "EnvironmentError"; "Exception"; "ExceptionGroup"; "False"; "FileExistsError";
    "FileNotFoundError"; "FloatingPointError"; "FutureWarning"; "GeneratorExit"; "IOError";
    "ImportError"; "ImportWarning"; "IndentationError"; "IndexError"; "InterruptedError";
    "IsADirectoryError"; "KeyError"; "KeyboardInterrupt"; "LookupError"; "MemoryError";
    "ModuleNotFoundError"; "NameError"; "None"; "NotADirectoryError"; "NotImplemented";
    "NotImplementedError"; "OSError"; "OverflowError"; "PendingDeprecationWarning";
    "PermissionError"; "ProcessLookupError"; "RecursionError"; "ReferenceError";
    "ResourceWarning"; "RuntimeError"; "RuntimeWarning"; "StopAsyncIteration"; "StopIteration";
    "SyntaxError"; "SyntaxWarning"; "SystemError"; "SystemExit"; "TabError"; "TimeoutError";
    "True"; "TypeError"; "UnboundLocalError"; "UnicodeDecodeError"; "UnicodeEncodeError";
    "UnicodeError"; "UnicodeTranslateError"; "UnicodeWarning"; "UserWarning"; "ValueError";
    "Warning"; "ZeroDivisionError"; "__build_class__"; "__debug__"; "__doc__"; "__import__";
    "__loader__"; "__name__"; "__package__"; "__spec__"; "abs"; "aiter"; "all"; "anext"; "any";
    "ascii"; "bin"; "bool"; "breakpoint"; "bytearray"; "bytes"; "callable"; "chr";
    "classmethod"; "compile"; "complex"; "copyright"; "credits"; "delattr"; "dict"; "dir";
    "divmod"; "enumerate"; "eval"; "exec"; "exit"; "filter"; "float"; "format"; "frozenset";
    "getattr"; "globals"; "hasattr"; "hash"; "help"; "hex"; "id"; "input"; "int"; "isinstance";
    "issubclass"; "iter"; "len"; "license"; "list"; "locals"; "map"; "max"; "memoryview"; "min";
    "next"; "object"; "oct"; "open"; "ord"; "pow"; "print"; "property"; "quit"; "range"; "repr";
    "reversed"; "round"; "set"; "setattr"; "slice"; "sorted"; "staticmethod"; "str"; "sum";
    "super"; "tuple"; "type"; "vars"; "zip"].

(** a name in an expression: a global, else a builtin, else [NameError] *)
Definition load (st : app_state) (x : string) : result pyobj :=
  match globals st !! x with
  | Some v => Ok v
  | None => if bool_decide (x ∈ builtins) then Ok (PFunction x) else Raise NameError
  end.

Definition define (x : string) (v : pyobj) (st : app_state) : app_state :=
  {| globals := <[x := v]> (globals st); routes := routes st; cors_enabled := cors_enabled st;
     browser_opened := browser_opened st; serving := serving st |}.

(** A fresh module, with the attributes CPython gives it before running
    its code: [__name__] is ["__main__"] when run as a script and ["acc"]
    when imported; an imported module also has [__cached__]; [acc.py] has
    no docstring. *)
Definition fresh_module (as_script : bool) : app_state :=
  {| globals := list_to_map
       ([("__name__", PStr (if as_script then "__main__" else "acc"));
         ("__doc__", PNone);
         ("__package__", if as_script then PNone else PStr "");
         ("__loader__", PObject "loader");
         ("__spec__", if as_script then PNone else PObject "spec");
         ("__file__", PStr "acc.py");
         ("__builtins__", PModule "builtins")] ++
        (if as_script then [] else [("__cached__", PStr "__pycache__/acc.cpython-311.pyc")]));
     routes := []; cors_enabled := false; browser_opened := false; serving := false |}.

(** lines 1-7 *)
Definition run_imports (st : app_state) : app_state :=
  foldl (fun st '(x, m) => define x (PModule m) st) st
    [("Flask", "flask"); ("request", "flask"); ("jsonify", "flask"); ("render_template", "flask");
     ("CORS", "flask_cors"); ("mysql", "mysql"); ("math", "math"); ("webbrowser", "webbrowser");
     ("os", "os"); ("bcrypt", "bcrypt")].

(** line 9: [app = Flask(_name_, template_folder='templates')]; the callee
    is evaluated before the argument *)
Definition create_app (st : app_state) : result app_state :=
  _ ← load st "Flask";
  _ ← load st "_name_";
  Ok (define "app" PFlaskApp st).

(** line 10: [CORS(app)] *)
Definition enable_cors (st : app_state) : result app_state :=
  _ ← load st "CORS";
  _ ← load st "app";
  Ok {| globals := globals st; routes := routes st; cors_enabled := true;
        browser_opened := browser_opened st; serving := serving st |}.

(** [@app.route(rule, methods=...)] above [def f]: the decorator reads
    [app] and registers the rule, then [f] is bound *)
Definition route (rule : string) (methods : list http_method) (f : string) (st : app_state)
    : result app_state :=
  _ ← load st "app";
  Ok (define f (PFunction f)
        {| globals := globals st; routes := routes st ++ [(rule, methods)];
           cors_enabled := cors_enabled st; browser_opened := browser_opened st;
           serving := serving st |}).

(** lines 204-208; [run_main] is [os.environ.get("WERKZEUG_RUN_MAIN")],
    set to ["true"] by the reloader in the process it restarts *)
Definition main_block (run_main : option string) (st : app_state) : result app_state :=
  n ← load st "_name_";
  if bool_decide (n = PStr "_main_") then
    _ ← load st "os";
    st1 ← (if bool_decide (run_main = Some "true"%string) then Ok st
           else _ ← load st "webbrowser";
                Ok {| globals := globals st; routes := routes st; cors_enabled := cors_enabled st;
                      browser_opened := true; serving := serving st |});
    _ ← load st1 "app";
    Ok {| globals := globals st1; routes := routes st1; cors_enabled := cors_enabled st1;
          browser_opened := browser_opened st1; serving := true |}
  else Ok st.

(** the whole top level, in the order of the file *)
Definition module_init (as_script : bool) (run_main : option string) : result app_state :=
  st ← create_app (run_imports (fresh_module as_script));
  st ← enable_cors st;
  let st := define "get_db" (PFunction "get_db") st in
  let st := define "keystroke_similarity" (PFunction "keystroke_similarity") st in
  let st := define "face_score_from_value" (PFunction "face_score_from_value") st in
  st ← route "/" [GET] "home" st;
  st ← route "/enroll" [POST] "enroll" st;
  st ← route "/verify" [POST] "verify" st;
  main_block run_main st.

(** ** Properties *)

(** C1: the application never starts.  However [acc.py] is loaded (run as
    a script or imported, in the reloader's process or not), its top level
    raises [NameError] at line 9, where [Flask(_name_, ...)] reads the
    undefined name [_name_]: no route is registered and no server runs.
    Line 204 would not start it either: its test compares with ["_main_"],
    so when [_name_] holds the module's real name ["__main__"] or ["acc"]
    the main block does nothing. *)
Theorem module_init_name_error (as_script : bool) (run_main : option string) :
  create_app (run_imports (fresh_module as_script)) = Raise NameError /\
  module_init as_script run_main = Raise NameError /\
  (forall st, globals st !! "_name_" = Some (PStr "__main__") \/ globals st !! "_name_" = Some (PStr "acc") ->
     main_block run_main st = Ok st).
Proof.
  split; [destruct as_script; reflexivity |]. split; [destruct as_script; reflexivity |].
  intros st Hn. unfold main_block, load.
  destruct Hn as [-> | ->]; reflexivity.
Qed.

(** ** Witnesses *)

Lemma module_init_name_error_witness :
  main_block None (define "_name_" (PStr "__main__") (run_imports (fresh_module true))) =
  Ok (define "_name_" (PStr "__main__") (run_imports (fresh_module true))).
Proof. apply (proj2 (proj2 (module_init_name_error true None))). left. reflexivity. Defined.

End App.
